(** * Houm.io light platform: a shallow embedding of
      [homeassistant/components/light/houm.py]

    The development models the controller ([HoumController]) and the device
    records ([HoumDevice], [HoumSwitch], [HoumDimmer]) of the platform.

    - Values that come from outside (the HTTP snapshot, socket payloads, the
      arguments of [set_value]) are Python values as the JSON parser builds
      them: [pyval].  Floating point numbers are left out.
    - Python exceptions are explicit: every operation that can raise returns
      a [result].
    - Effects on collaborators (HTTP request, logger, socket, the host's
      device registry) are recorded as a trace of [event]s.
    - [time.time()] readings are arguments of the functions that read the
      clock; they are binary64 floating point numbers, as Python's [float],
      and [+] and [>] on them are the IEEE operations. *)

From Stdlib Require Import ZArith Floats String.
From stdpp Require Import gmap strings list fin_maps.

Set Warnings "-register-all".
Local Open Scope string_scope.
Local Open Scope list_scope.

(** ** Python values *)

Module Py.

Inductive pyval : Type :=
| PyNone
| PyBool (b : bool)
| PyInt (z : Z)
| PyStr (s : string)
| PyList (l : list pyval)
| PyDict (d : list (string * pyval)).

Inductive exn : Type :=
| KeyError
| AttributeError
| TypeError
| ValueError
| RequestException.

Inductive result (A : Type) : Type :=
| Ok (a : A)
| Raise (e : exn).
Arguments Ok {A} a.
Arguments Raise {A} e.

#[export] Instance result_ret : MRet result := fun A a => Ok a.
#[export] Instance result_bind : MBind result := fun A B f m =>
  match m with
  | Ok a => f a
  | Raise e => Raise e
  end.

(** Keys of a [dict]: the hashable values, up to Python's [==]
    ([True == 1] and [False == 0] and their hashes agree). *)
Inductive pykey : Type :=
| KNone
| KInt (z : Z)
| KStr (s : string).

#[export] Instance pykey_eq_dec : EqDecision pykey.
Proof. solve_decision. Defined.

Definition pykey_enc (k : pykey) : unit + Z + string :=
  match k with
  | KNone => inl (inl tt)
  | KInt z => inl (inr z)
  | KStr s => inr s
  end.

Definition pykey_dec (x : unit + Z + string) : pykey :=
  match x with
  | inl (inl _) => KNone
  | inl (inr z) => KInt z
  | inr s => KStr s
  end.

#[export] Instance pykey_countable : Countable pykey.
Proof.
  apply (inj_countable' pykey_enc pykey_dec).
  intros []; reflexivity.
Defined.

(** [hash(v)], as far as a [dict] needs it: lists and dicts are
    unhashable. *)
Definition py_hash (v : pyval) : result pykey :=
  match v with
  | PyNone => Ok KNone
  | PyBool b => Ok (KInt (if b then 1 else 0))
  | PyInt z => Ok (KInt z)
  | PyStr s => Ok (KStr s)
  | PyList _ | PyDict _ => Raise TypeError
  end.

(** Truth value of [v] in a condition. *)
Definition py_truthy (v : pyval) : bool :=
  match v with
  | PyNone => false
  | PyBool b => b
  | PyInt z => negb (z =? 0)%Z
  | PyStr s => match s with EmptyString => false | String _ _ => true end
  | PyList l => match l with [] => false | _ => true end
  | PyDict d => match d with [] => false | _ => true end
  end.

(** [v == s] for a string literal [s]. *)
Definition py_eq_str (v : pyval) (s : string) : bool :=
  match v with
  | PyStr s' => String.eqb s' s
  | _ => false
  end.

(** [v > 0] (Python 3: only numbers are ordered against an int). *)
Definition py_gt0 (v : pyval) : result pyval :=
  match v with
  | PyBool b => Ok (PyBool b)
  | PyInt z => Ok (PyBool (0 <? z)%Z)
  | _ => Raise TypeError
  end.

(** Lookup in the items of a dict. *)
Fixpoint dict_lookup (k : string) (d : list (string * pyval)) : option pyval :=
  match d with
  | [] => None
  | (k', v) :: d' => if String.eqb k' k then Some v else dict_lookup k d'
  end.

(** [sub in s] on strings. *)
Fixpoint str_contains (sub s : string) : bool :=
  String.prefix sub s ||
  match s with
  | EmptyString => false
  | String _ s' => str_contains sub s'
  end.

(** [k in v] for a string literal [k]. *)
Definition py_in (k : string) (v : pyval) : result bool :=
  match v with
  | PyDict d => Ok (bool_decide (is_Some (dict_lookup k d)))
  | PyList l => Ok (existsb (fun x => py_eq_str x k) l)
  | PyStr s => Ok (str_contains k s)
  | PyNone | PyBool _ | PyInt _ => Raise TypeError
  end.

(** [v.get(k, default)]: only a dict has the method. *)
Definition py_get_default (v : pyval) (k : string) (default : pyval) : result pyval :=
  match v with
  | PyDict d => Ok (match dict_lookup k d with Some x => x | None => default end)
  | _ => Raise AttributeError
  end.

(** [v.get(k)] *)
Definition py_get (v : pyval) (k : string) : result pyval :=
  py_get_default v k PyNone.

(** [v[k]] for a string literal [k]. *)
Definition py_getitem (v : pyval) (k : string) : result pyval :=
  match v with
  | PyDict d => match dict_lookup k d with Some x => Ok x | None => Raise KeyError end
  | _ => Raise TypeError
  end.

Fixpoint str_chars (s : string) : list pyval :=
  match s with
  | EmptyString => []
  | String c s' => PyStr (String c EmptyString) :: str_chars s'
  end.

(** The elements [for x in v] runs through. *)
Definition py_iter (v : pyval) : result (list pyval) :=
  match v with
  | PyList l => Ok l
  | PyDict d => Ok (map (fun kv => PyStr (fst kv)) d)
  | PyStr s => Ok (str_chars s)
  | PyNone | PyBool _ | PyInt _ => Raise TypeError
  end.

End Py.
Import Py.

(** ** Device records

    [HoumDevice] with its two subclasses; [cls] is the class of the object. *)

Inductive device_class : Type :=
| HoumSwitch
| HoumDimmer.

Record HoumDevice : Type := mkHoumDevice {
  cls : device_class;
  on : pyval;
  bri : pyval;
  deviceId : pyval;
  type : pyval;
  _name : pyval;
  protocol : pyval
}.

(** [self.on = v] and [self.bri = v] *)
Definition set_on (v : pyval) (d : HoumDevice) : HoumDevice :=
  mkHoumDevice (cls d) v (bri d) (deviceId d) (type d) (_name d) (protocol d).

Definition set_bri (v : pyval) (d : HoumDevice) : HoumDevice :=
  mkHoumDevice (cls d) (on d) v (deviceId d) (type d) (_name d) (protocol d).

(** [HoumDevice.__init__] (the subclasses only call it) *)
Definition HoumDevice_init (c : device_class) (json_state : pyval) : result HoumDevice :=
  v_on ← py_get json_state "on";
  v_bri ← py_get json_state "bri";
  v_id ← py_get json_state "_id";
  v_type ← py_get json_state "type";
  v_name ← py_get json_state "name";
  v_protocol ← py_get json_state "protocol";
  Ok (mkHoumDevice c v_on v_bri v_id v_type v_name v_protocol).

(** ** Effects on the collaborators *)

Inductive event : Type :=
| HttpGet (url : string)                    (* requests.get(url) *)
| LogError (msg : string)                   (* _LOGGER.error(msg) *)
| LogErrorArgs (args : list string)         (* _LOGGER.error(e.args) *)
| LogException (msg : string)               (* _LOGGER.exception(msg) *)
| AddDevices (new_lights : list HoumDevice) (* self.add_devices_callback(new_lights) *)
| SocketEmit (name : string) (payload : pyval) (* self.socket.emit(name, payload) *)
| UpdateHaState (d : HoumDevice).           (* d.update_ha_state() *)

(** ** The controller *)

(** The attributes of a constructed [HoumController] that discovery, push
    handling and commands read or write.  The configuration is typed as its
    schema has it: [device_data] maps ids to option values, [protocols] is a
    list of protocol names (the default [{}] is the empty list). *)
Record HoumController : Type := mkHoumController {
  SITE_KEY : string;
  config_device_data : gmap pykey pyval;
  protocols : list string;
  last_command_sent : float;
  device_id_map : gmap pykey HoumDevice
}.

Definition set_last_command_sent (t : float) (self : HoumController) : HoumController :=
  mkHoumController (SITE_KEY self) (config_device_data self) (protocols self)
    t (device_id_map self).

Definition set_device_id_map (m : gmap pykey HoumDevice) (self : HoumController)
  : HoumController :=
  mkHoumController (SITE_KEY self) (config_device_data self) (protocols self)
    (last_command_sent self) m.

(** *** [get_lights] *)

(** The loop of lines 156-160: one device per entry of type [dimmable] or
    [binary].  The [elif] evaluates ['type' in light] and [light.get('type')]
    a second time, with the same results. *)
Definition build_device (light : pyval) : result (list HoumDevice) :=
  has_type ← py_in "type" light;
  if (has_type : bool) then
    ty ← py_get light "type";
    if py_eq_str ty "dimmable" then
      d ← HoumDevice_init HoumDimmer light; Ok [d]
    else if py_eq_str ty "binary" then
      d ← HoumDevice_init HoumSwitch light; Ok [d]
    else Ok []
  else Ok [].

Fixpoint build_devices (lights : list pyval) : result (list HoumDevice) :=
  match lights with
  | [] => Ok []
  | light :: rest =>
      this ← build_device light;
      more ← build_devices rest;
      Ok (this ++ more)
  end.

(** [v in l] for a list of strings *)
Definition py_in_strs (v : pyval) (l : list string) : bool :=
  existsb (py_eq_str v) l.

(** [not l] *)
Definition is_empty {A} (l : list A) : bool :=
  match l with [] => true | _ => false end.

(** Lines 162-171 *)
Definition filter_devices (type_filter protocol_filter : list string)
  (devices : list HoumDevice) : list HoumDevice :=
  if is_empty type_filter && is_empty protocol_filter then devices
  else
    List.filter (fun light =>
      (is_empty type_filter || py_in_strs (type light) type_filter)
      && (is_empty protocol_filter || py_in_strs (protocol light) protocol_filter))
      devices.

Definition site_info_url (self : HoumController) : string :=
  String.append "https://houmi.herokuapp.com/api/site/" (SITE_KEY self).

(** [now] is the reading of [time.time()] on line 147; [response] is what
    [requests.get(site_info_url).json()] gives: the parsed document, or the
    exception it raises. *)
Definition get_lights (self : HoumController) (now : float) (response : result pyval)
  (type_filter protocol_filter : list string)
  : result (list HoumDevice) * HoumController * list event :=
  let self := set_last_command_sent now self in
  let r :=
    site_info ← response;
    lights ← py_get site_info "lights";
    ls ← py_iter lights;
    devices ← build_devices ls;
    Ok (filter_devices type_filter protocol_filter devices) in
  (r, self, [HttpGet (site_info_url self)]).

(** *** [discover_lights_and_sync_statuses] *)

(** Line 120: [(self.last_command_sent + 1) > time.time()] *)
Definition rate_limited (self : HoumController) (now : float) : bool :=
  PrimFloat.ltb now (last_command_sent self + 1)%float.

(** Lines 133-134, as the truth value [not excluded] tests. *)
Definition is_excluded (config : gmap pykey pyval) (light : HoumDevice) : result bool :=
  k ← py_hash (deviceId light);
  match config !! k with
  | None => Ok false
  | Some options =>
      v ← py_get_default options "exclude" (PyBool false);
      Ok (py_truthy v)
  end.

(** One turn of the loop of lines 132-141.  [new_lights] holds the keys of
    the objects appended to the Python list: each of them is the object the
    registry holds under that key, so a later turn that updates the
    registry's object updates the list's element too. *)
Definition sync_light (config : gmap pykey pyval) (light : HoumDevice)
  (reg : gmap pykey HoumDevice) (new_lights : list pykey)
  : result (gmap pykey HoumDevice * list pykey) :=
  excluded ← is_excluded config light;
  k ← py_hash (deviceId light);
  match reg !! k with
  | None =>
      if negb excluded then Ok (<[k := light]> reg, new_lights ++ [k])
      else Raise KeyError                      (* self.device_id_map[light.deviceId] *)
  | Some light_to_update =>
      Ok (<[k := set_bri (bri light) (set_on (on light) light_to_update)]> reg,
          new_lights)
  end.

(** The loop: it stops at the first turn that raises, the registry keeping
    what the turns before did. *)
Fixpoint sync_lights (config : gmap pykey pyval) (found_lights : list HoumDevice)
  (reg : gmap pykey HoumDevice) (new_lights : list pykey)
  : gmap pykey HoumDevice * list pykey * result unit :=
  match found_lights with
  | [] => (reg, new_lights, Ok tt)
  | light :: rest =>
      match sync_light config light reg new_lights with
      | Ok (reg', new_lights') => sync_lights config rest reg' new_lights'
      | Raise e => (reg, new_lights, Raise e)
      end
  end.

(** The objects of [new_lights], as the callback sees them. *)
Definition new_light_objects (reg : gmap pykey HoumDevice) (new_lights : list pykey)
  : list HoumDevice :=
  omap (fun k => reg !! k) new_lights.

(** [now_check] is the reading of the clock on line 120, [now_fetch] the one
    in [get_lights].  The value is what the call returns ([None] or [False])
    or the exception it lets through. *)
Definition discover_lights_and_sync_statuses (self : HoumController)
  (now_check now_fetch : float) (response : result pyval)
  : result pyval * HoumController * list event :=
  if rate_limited self now_check then (Ok PyNone, self, [])
  else
    let '(r, self, trace) :=
      get_lights self now_fetch response ["binary"; "dimmable"] (protocols self) in
    match r with
    | Raise RequestException =>
        (Ok (PyBool false), self,
         trace ++ [LogException "Error communicating with Houm"])
    | Raise e => (Raise e, self, trace)
    | Ok found_lights =>
        let '(reg, new_lights, r') :=
          sync_lights (config_device_data self) found_lights (device_id_map self) [] in
        let self := set_device_id_map reg self in
        match r' with
        | Raise e => (Raise e, self, trace)
        | Ok _ =>
            (Ok PyNone, self,
             trace ++ (if is_empty new_lights then []
                       else [AddDevices (new_light_objects reg new_lights)]))
        end
    end.

(** *** [update_light], the handler of [setLightState] *)

(** The [except AttributeError] clause of lines 114-117. *)
Definition update_light_except (e : exn) (self : HoumController)
  : result unit * HoumController * list event :=
  match e with
  | AttributeError =>
      (Ok tt, self,
       [LogError "Invalid data received from socket: ";
        LogErrorArgs ["'NoneType' object has no attribute 'bri'"]])
  | _ => (Raise e, self, [])
  end.

Definition update_light (self : HoumController) (updated_data : pyval)
  : result unit * HoumController * list event :=
  match (v ← py_getitem updated_data "_id"; py_hash v) with
  | Raise e => update_light_except e self
  | Ok k =>
      let updated_device := device_id_map self !! k in
      match py_getitem updated_data "bri" with
      | Raise e => update_light_except e self
      | Ok v_bri =>
          match updated_device with
          | None => update_light_except AttributeError self
          | Some d =>
              let d := set_bri v_bri d in
              let self := set_device_id_map (<[k := d]> (device_id_map self)) self in
              match py_getitem updated_data "on" with
              | Raise e => update_light_except e self
              | Ok v_on =>
                  let d := set_on v_on d in
                  let self := set_device_id_map (<[k := d]> (device_id_map self)) self in
                  (Ok tt, self, [UpdateHaState d])
              end
          end
      end
  end.

(** *** [HoumController.set_value] *)

Definition apply_light_payload (device_id v_on v_bri : pyval) : pyval :=
  PyDict [("_id", device_id); ("on", v_on); ("bri", v_bri)].

Definition HoumController_set_value (name : string) (device_id value : pyval)
  : result unit * list event :=
  match (if String.eqb name "on" then Ok value else py_gt0 value) with
  | Raise e => (Raise e, [])
  | Ok v_on =>
      let v_bri :=
        if String.eqb name "bri" then value
        else if py_truthy value then PyInt 255 else PyInt 0 in
      (Ok tt, [SocketEmit "apply/light" (apply_light_payload device_id v_on v_bri)])
  end.

(** ** [HoumDevice] methods *)

Definition HoumDevice_set_value (name : string) (value : pyval) (self : HoumDevice)
  : result unit * HoumDevice * list event :=
  let local :=
    if String.eqb name "bri" then
      let self := set_bri value self in
      match py_gt0 value with
      | Ok b => (Ok tt, set_on b self)
      | Raise e => (Raise e, self)
      end
    else if String.eqb name "on" then (Ok tt, set_on value self)
    else (Ok tt, self) in
  match local with
  | (Raise e, self) => (Raise e, self, [])
  | (Ok _, self) =>
      let '(r, trace) := HoumController_set_value name (deviceId self) value in
      (r, self, trace)
  end.

Definition get_value (name : string) (self : HoumDevice) : pyval :=
  if String.eqb name "on" then on self
  else if String.eqb name "bri" then bri self
  else PyNone.

(** [HoumSwitch.turn_on], [HoumSwitch.turn_off], [HoumSwitch.is_on] *)
Definition HoumSwitch_turn_on (self : HoumDevice) :=
  HoumDevice_set_value "on" (PyBool true) self.

Definition turn_off (self : HoumDevice) :=
  HoumDevice_set_value "on" (PyBool false) self.

Definition is_on (self : HoumDevice) : pyval := get_value "on" self.

(** [HoumDimmer.brightness] and [HoumDimmer.turn_on]; [kw_brightness] is the
    keyword argument [brightness], when the caller gives it. *)
Definition brightness (self : HoumDevice) : pyval := get_value "bri" self.

Definition HoumDimmer_turn_on (kw_brightness : option pyval) (self : HoumDevice) :=
  let new_brightness :=
    match kw_brightness with
    | Some v => v
    | None => PyInt 255
    end in
  HoumDevice_set_value "bri" new_brightness self.

(** [turn_on], dispatched on the class of the object; [HoumSwitch.turn_on]
    takes no keyword argument. *)
Definition turn_on (kw_brightness : option pyval) (self : HoumDevice)
  : result unit * HoumDevice * list event :=
  match cls self, kw_brightness with
  | HoumSwitch, None => HoumSwitch_turn_on self
  | HoumSwitch, Some _ => (Raise TypeError, self, [])
  | HoumDimmer, _ => HoumDimmer_turn_on kw_brightness self
  end.

(** ** Construction, the socket and the poller

    The calls the controller makes on its socket, its threads and the host,
    in order.  A thread that joins itself gets Python's [RuntimeError]; the
    thread a method runs on is an argument of the method.  What a
    collaborator does inside a call (the socket library calling a handler
    back, the pass a joined timer thread still finishes) is not part of the
    trace of the method that makes the call. *)

Inductive thread : Type :=
| HostThread                   (* the thread that sets the platform up or stops it *)
| SocketThread (n : nat)       (* the thread running [wait] of the n-th socket *)
| TimerThread.                 (* the thread of the [IntervalTimer] *)

Inductive raised : Type :=
| Raised (e : exn)
| RuntimeError.

Inductive call : Type :=
| Core (ev : event)                              (* a call of the code above *)
| Print (text : string)                          (* print(text) *)
| PrintIsAlive (n : nat)                         (* print(self.socket_thread.is_alive()) *)
| SocketIO_new (n : nat) (host : string)         (* SocketIO(host=host, ...) *)
| SocketOn (n : nat) (name handler : string)     (* self.socket.on(name, self.handler) *)
| SocketThreadStart (n : nat)                    (* Thread(target=self.socket.wait).start() *)
| SocketDisconnect (n : nat)                     (* self.socket.disconnect() *)
| SocketThreadJoin (n : nat)                     (* self.socket_thread.join() *)
| TimerStart (interval : Z)                      (* IntervalTimer(interval, ...).start() *)
| StopEventSet                                   (* self.stop_event.set() *)
| TimerJoin                                      (* self.join() in StoppableThread.stop *)
| ListenOnceStop.                                (* hass.bus.listen_once(EVENT_HOMEASSISTANT_STOP, ...) *)

(** The configuration [__init__] reads: [config.get('site_key')],
    [config.get('device_data', {})], [config.get('protocols', {})]. *)
Record Config : Type := mkConfig {
  site_key : option string;
  device_data : gmap pykey pyval;
  config_protocols : list string
}.

(** The whole object.  [attrs] is [None] when [__init__] returned at the
    [site_key] guard, which leaves [SITE_KEY] ... [device_id_map] unset; an
    attribute that is read before it is set is [None] for
    [reconnect_on_disconnect] and [discover_and_sync_timer] too.  The timer
    is [Some alive].  [sockets_created] numbers the sockets. *)
Record HoumControllerObject : Type := mkObject {
  attrs : option HoumController;
  socket : option nat;
  socket_thread : option nat;
  reconnect_on_disconnect : option bool;
  discover_and_sync_timer : option bool;
  sockets_created : nat
}.

Definition thread_eqb (a b : thread) : bool :=
  match a, b with
  | HostThread, HostThread => true
  | SocketThread n, SocketThread m => Nat.eqb n m
  | TimerThread, TimerThread => true
  | _, _ => false
  end.

(** [StoppableThread.stop], on a timer that is [alive] or not. *)
Definition StoppableThread_stop (caller : thread) (alive : bool)
  : option raised * bool * list call :=
  if alive then
    if thread_eqb caller TimerThread then (Some RuntimeError, true, [StopEventSet])
    else (None, false, [StopEventSet; TimerJoin])
  else (None, false, []).

Definition open_socket (self : HoumControllerObject)
  : HoumControllerObject * list call :=
  let n := sockets_created self in
  (mkObject (attrs self) (Some n) (Some n) (reconnect_on_disconnect self)
     (discover_and_sync_timer self) (S n),
   [Print "opening socket";
    SocketIO_new n "https://houmi.herokuapp.com";
    SocketOn n "connect" "on_connect";
    SocketThreadStart n;
    SocketOn n "disconnect" "reconnect";
    SocketOn n "close" "reconnect";
    SocketOn n "error" "reconnect"]).

Definition close_socket (caller : thread) (self : HoumControllerObject)
  : option raised * HoumControllerObject * list call :=
  let self := mkObject (attrs self) (socket self) (socket_thread self) (Some false)
                (discover_and_sync_timer self) (sockets_created self) in
  match discover_and_sync_timer self with
  | None => (Some (Raised AttributeError), self, [])
  | Some alive =>
      let '(r, alive', trace) := StoppableThread_stop caller alive in
      let self := mkObject (attrs self) (socket self) (socket_thread self)
                    (reconnect_on_disconnect self) (Some alive')
                    (sockets_created self) in
      match r with
      | Some e => (Some e, self, trace)
      | None =>
          match socket self with
          | None => (Some (Raised AttributeError), self, trace)
          | Some n =>
              let trace := trace ++ [SocketDisconnect n] in
              match socket_thread self with
              | None => (Some (Raised AttributeError), self, trace)
              | Some m =>
                  if thread_eqb caller (SocketThread m)
                  then (Some RuntimeError, self, trace)
                  else (None, self, trace ++ [SocketThreadJoin m])
              end
          end
      end
  end.

Definition reconnect (caller : thread) (self : HoumControllerObject)
  : option raised * HoumControllerObject * list call :=
  match socket_thread self with
  | None => (Some (Raised AttributeError), self, [])
  | Some m =>
      match reconnect_on_disconnect self with
      | None => (Some (Raised AttributeError), self, [PrintIsAlive m])
      | Some false => (None, self, [PrintIsAlive m])
      | Some true =>
          let '(r, self, trace) := close_socket caller self in
          match r with
          | Some e => (Some e, self, PrintIsAlive m :: trace)
          | None =>
              let '(self, trace') := open_socket self in
              (None, self, PrintIsAlive m :: trace ++ trace')
          end
      end
  end.

Definition on_connect (self : HoumControllerObject) : option raised * list call :=
  match socket self, attrs self with
  | Some n, Some c =>
      (None,
       [Core (SocketEmit "clientReady" (PyDict [("siteKey", PyStr (SITE_KEY c))]));
        SocketOn n "setLightState" "update_light"])
  | _, _ => (Some (Raised AttributeError), [])
  end.

(** [not site_key] *)
Definition site_key_missing (config : Config) : bool :=
  match site_key config with
  | None | Some EmptyString => true
  | Some (String _ _) => false
  end.

(** [HoumController.__init__]; the clock readings and the response are those
    of the discovery pass it runs. *)
Definition HoumController_init (config : Config) (now_check now_fetch : float)
  (response : result pyval)
  : option raised * HoumControllerObject * list call :=
  let self := mkObject None None None None None 0 in
  match site_key config with
  | None | Some EmptyString =>
      (None, self,
       [Core (LogError "The required parameter 'site_key' was not found in config")])
  | Some key =>
      let c := mkHoumController key (device_data config) (config_protocols config)
                 0 ∅ in
      let '(r, c, trace) :=
        discover_lights_and_sync_statuses c now_check now_fetch response in
      let self := mkObject (Some c) None None None None 0 in
      match r with
      | Raise e => (Some (Raised e), self, map Core trace)
      | Ok _ =>
          let self := mkObject (Some c) None None (Some true) None 0 in
          let '(self, trace') := open_socket self in
          let self := mkObject (attrs self) (socket self) (socket_thread self)
                        (reconnect_on_disconnect self) (Some true)
                        (sockets_created self) in
          (None, self, map Core trace ++ trace' ++ [TimerStart 5])
      end
  end.

Definition setup_platform (config : Config) (now_check now_fetch : float)
  (response : result pyval)
  : option raised * HoumControllerObject * list call :=
  let '(r, controller, trace) :=
    HoumController_init config now_check now_fetch response in
  match r with
  | Some e => (Some e, controller, trace)
  | None => (None, controller, trace ++ [ListenOnceStop])
  end.

(** [IntervalTimer.run] with [discover_lights_and_sync_statuses] as its
    worker.  Each turn of the loop reads [stop_event.is_set()] and, when it
    is not set, runs one pass with its clock readings and its response; the
    model runs the turns it is given.  An exception of the worker leaves
    [run], which ends the thread. *)
Inductive run_status : Type :=
| Looping                 (* the turns given are used up *)
| Exited                  (* the loop saw the stop event *)
| Died (e : exn).         (* the worker raised *)

Fixpoint IntervalTimer_run (turns : list (bool * (float * float * result pyval)))
  (self : HoumController) : run_status * HoumController * list event :=
  match turns with
  | [] => (Looping, self, [])
  | (stop_is_set, (now_check, now_fetch, response)) :: rest =>
      if (stop_is_set : bool) then (Exited, self, [])
      else
        let '(r, self, trace) :=
          discover_lights_and_sync_statuses self now_check now_fetch response in
        match r with
        | Raise e => (Died e, self, trace)
        | Ok _ =>
            let '(status, self, trace') := IntervalTimer_run rest self in
            (status, self, trace ++ trace')
        end
  end.

Definition is_socket_new (c : call) : bool :=
  match c with SocketIO_new _ _ => true | _ => false end.

Definition is_timer_start (c : call) : bool :=
  match c with TimerStart _ => true | _ => false end.

(** * Properties *)

(** ** Observations on traces *)

Definition is_fetch (ev : event) : bool :=
  match ev with HttpGet _ => true | _ => false end.

Definition is_announcement (ev : event) : bool :=
  match ev with AddDevices _ => true | _ => false end.

Definition is_state_changed (ev : event) : bool :=
  match ev with UpdateHaState _ => true | _ => false end.

Definition is_apply_light (ev : event) : bool :=
  match ev with SocketEmit name _ => String.eqb name "apply/light" | _ => false end.

Definition count (p : event -> bool) (trace : list event) : nat :=
  length (List.filter p trace).

(** One call of a record's [set_value] notifies the host's registry once. *)
Definition notifies_once (name : string) (value : pyval) (self : HoumDevice) : Prop :=
  count is_state_changed (HoumDevice_set_value name value self).2 = 1%nat.

(** The fields of a record that say which device it is. *)
Definition same_identity (d d' : HoumDevice) : Prop :=
  cls d' = cls d /\ deviceId d' = deviceId d /\ type d' = type d
  /\ _name d' = _name d /\ protocol d' = protocol d.

(** The configuration excludes the id with key [k]. *)
Definition excludes (config : gmap pykey pyval) (k : pykey) : Prop :=
  exists options v, config !! k = Some options
    /\ py_get_default options "exclude" (PyBool false) = Ok v
    /\ py_truthy v = true.

(** The devices [get_lights] returns to the discovery pass: they depend on
    the response and on the protocol filter only. *)
Definition found_lights (response : result pyval) (protocol_filter : list string)
  : result (list HoumDevice) :=
  site_info ← response;
  lights ← py_get site_info "lights";
  ls ← py_iter lights;
  devices ← build_devices ls;
  Ok (filter_devices ["binary"; "dimmable"] protocol_filter devices).

(** The passes of a run: each with its two clock readings and its response. *)
Fixpoint run_passes (passes : list (float * float * result pyval)) (self : HoumController)
  : HoumController :=
  match passes with
  | [] => self
  | (now_check, now_fetch, response) :: rest =>
      run_passes rest
        (discover_lights_and_sync_statuses self now_check now_fetch response).1.2
  end.

(** ** Sample data *)

Definition light_entry (id type : string) (v_on : bool) (v_bri : Z) : pyval :=
  PyDict [("_id", PyStr id); ("type", PyStr type); ("name", PyStr "Lamp");
          ("protocol", PyStr "knx"); ("on", PyBool v_on); ("bri", PyInt v_bri)].

Definition lamp : HoumDevice :=
  mkHoumDevice HoumDimmer (PyBool false) (PyInt 0) (PyStr "a")
    (PyStr "dimmable") (PyStr "Lamp") (PyStr "knx").

(** A controller right after construction, with nothing discovered. *)
Definition fresh_controller (device_data : gmap pykey pyval) : HoumController :=
  mkHoumController "site" device_data [] 0 ∅.

Definition exclude_x : gmap pykey pyval :=
  {[ KStr "x" := PyDict [("exclude", PyBool true)] ]}.

Definition snapshot (lights : list pyval) : pyval :=
  PyDict [("lights", PyList lights)].

Definition plug : HoumDevice :=
  mkHoumDevice HoumSwitch (PyBool false) (PyInt 0) (PyStr "s")
    (PyStr "binary") (PyStr "Plug") (PyStr "zwave").

(** Observations on the calls of the life cycle. *)
Definition count_calls (p : call -> bool) (trace : list call) : nat :=
  length (List.filter p trace).

(** The device a snapshot entry describes agrees with its class. *)
Definition well_typed_device (d : HoumDevice) : Prop :=
  (cls d = HoumDimmer /\ type d = PyStr "dimmable")
  \/ (cls d = HoumSwitch /\ type d = PyStr "binary").

Ltac unfold_bind := unfold mbind, result_bind, mret, result_ret in *.

(** ** The reconciliation loop *)

Section Reconcile.

Variable config : gmap pykey pyval.

Lemma same_identity_refl d : same_identity d d.
Proof. repeat split. Qed.

Lemma same_identity_update d d' v_on v_bri :
  same_identity d d' -> same_identity d (set_bri v_bri (set_on v_on d')).
Proof. unfold same_identity. destruct d'; simpl. tauto. Qed.

(** What a turn does, by cases on its key, on the exclusion test and on the
    registry. *)
Lemma sync_light_cases light reg new_lights :
  (exists e, sync_light config light reg new_lights = Raise e
     /\ (py_hash (deviceId light) = Raise e
         \/ (exists k, py_hash (deviceId light) = Ok k
               /\ is_excluded config light = Raise e)
         \/ (exists k, py_hash (deviceId light) = Ok k
               /\ is_excluded config light = Ok true
               /\ reg !! k = None /\ e = KeyError)))
  \/ (exists k, py_hash (deviceId light) = Ok k
        /\ is_excluded config light = Ok false /\ reg !! k = None
        /\ sync_light config light reg new_lights
           = Ok (<[k := light]> reg, new_lights ++ [k]))
  \/ (exists k d excluded, py_hash (deviceId light) = Ok k
        /\ is_excluded config light = Ok excluded /\ reg !! k = Some d
        /\ sync_light config light reg new_lights
           = Ok (<[k := set_bri (bri light) (set_on (on light) d)]> reg, new_lights)).
Proof.
  unfold sync_light.
  destruct (py_hash (deviceId light)) as [k|e] eqn:Hk.
  2:{ left. exists e. unfold is_excluded. rewrite Hk. unfold_bind. auto. }
  destruct (is_excluded config light) as [b|e] eqn:Hex.
  2:{ left. exists e. unfold_bind. split; [reflexivity|]. right; left. eauto. }
  unfold_bind.
  destruct (reg !! k) as [d|] eqn:Hreg.
  - right; right. exists k, d, b. auto.
  - destruct b; simpl.
    + left. exists KeyError. split; [reflexivity|]. right; right. exists k. auto.
    + right; left. exists k. auto.
Qed.

(** A turn that returns leaves the key of its entry in the registry and
    adds no other key. *)
Lemma sync_light_dom light reg new_lights reg' new_lights' :
  sync_light config light reg new_lights = Ok (reg', new_lights') ->
  exists k, py_hash (deviceId light) = Ok k /\ dom reg' = {[k]} ∪ dom reg.
Proof.
  intros H.
  destruct (sync_light_cases light reg new_lights)
    as [(e & He & _) | [(k & Hk & _ & _ & Hs) | (k & d & b & Hk & _ & Hd & Hs)]];
    rewrite H in *; try discriminate; inversion Hs; subst; exists k;
    (split; [assumption | apply dom_insert_L]).
Qed.

(** Whether a turn raises, and what, depends on the registry only through
    its set of keys. *)
Lemma sync_light_raise_dom light reg new_lights e reg2 new_lights2 :
  sync_light config light reg new_lights = Raise e ->
  dom reg2 = dom reg ->
  sync_light config light reg2 new_lights2 = Raise e.
Proof.
  intros H Hdom.
  assert (Hnone : forall k, reg !! k = None -> reg2 !! k = None).
  { intros k Hk. apply not_elem_of_dom. rewrite Hdom. by apply not_elem_of_dom. }
  destruct (sync_light_cases light reg new_lights)
    as [(e' & He & Hwhy) | [(k & _ & _ & _ & Hs) | (k & d & b & _ & _ & _ & Hs)]];
    rewrite H in *; try discriminate.
  inversion He; subst e'. clear He.
  unfold sync_light.
  destruct Hwhy as [Hk | [(k & Hk & Hex) | (k & Hk & Hex & Hreg & ->)]].
  - unfold is_excluded. rewrite Hk. reflexivity.
  - rewrite Hex. reflexivity.
  - rewrite Hex, Hk. unfold_bind. rewrite (Hnone _ Hreg). reflexivity.
Qed.

(** On an entry whose key the registry has, a turn that returns only
    overwrites [on] and [bri] of the record under that key. *)
Lemma sync_light_present light reg new_lights k reg' new_lights' :
  py_hash (deviceId light) = Ok k ->
  is_Some (reg !! k) ->
  sync_light config light reg new_lights = Ok (reg', new_lights') ->
  new_lights' = new_lights /\ dom reg' = dom reg
  /\ exists d, reg !! k = Some d
       /\ reg' = <[k := set_bri (bri light) (set_on (on light) d)]> reg.
Proof.
  intros Hk [d Hd] H.
  destruct (sync_light_cases light reg new_lights)
    as [(e & He & _) | [(k' & Hk' & _ & Hn & _) | (k' & d' & b & Hk' & _ & Hd' & Hs)]].
  - congruence.
  - congruence.
  - assert (k' = k) as -> by congruence.
    rewrite Hs in H. injection H as <- <-.
    split; [reflexivity|]. split.
    + apply dom_insert_lookup_L. eauto.
    + exists d'. auto.
Qed.

End Reconcile.

Section ReconcileLoop.

Variable config : gmap pykey pyval.

Lemma sync_lights_app pre rest reg new_lights :
  sync_lights config (pre ++ rest) reg new_lights =
  match sync_lights config pre reg new_lights with
  | (reg1, new_lights1, Ok _) => sync_lights config rest reg1 new_lights1
  | (reg1, new_lights1, Raise e) => (reg1, new_lights1, Raise e)
  end.
Proof.
  revert reg new_lights.
  induction pre as [|light pre IH]; intros reg new_lights; simpl.
  - reflexivity.
  - destruct (sync_light config light reg new_lights) as [[reg' new']|e].
    + apply IH.
    + reflexivity.
Qed.

(** The loop never removes a key. *)
Lemma sync_lights_dom_mono found reg new_lights :
  dom reg ⊆ dom (sync_lights config found reg new_lights).1.1.
Proof.
  revert reg new_lights.
  induction found as [|light found IH]; intros reg new_lights; simpl.
  - reflexivity.
  - destruct (sync_light config light reg new_lights) as [[reg' new']|e] eqn:H.
    + destruct (sync_light_dom _ _ _ _ _ _ H) as (k & _ & Hdom).
      etrans; [|apply IH]. rewrite Hdom. apply union_subseteq_r.
    + reflexivity.
Qed.

(** Running the loop again on the same entries, from a registry with the
    keys the first run left, inserts nothing, announces nothing and ends
    the way the first run did. *)
Lemma sync_lights_again found reg new_lights reg2 new_lights2 :
  dom reg2 = dom (sync_lights config found reg new_lights).1.1 ->
  dom (sync_lights config found reg2 new_lights2).1.1 = dom reg2
  /\ (sync_lights config found reg2 new_lights2).1.2 = new_lights2
  /\ (sync_lights config found reg2 new_lights2).2
     = (sync_lights config found reg new_lights).2.
Proof.
  revert reg new_lights reg2 new_lights2.
  induction found as [|light found IH]; intros reg new_lights reg2 new_lights2; simpl.
  - auto.
  - destruct (sync_light config light reg new_lights) as [[reg' new']|e] eqn:H.
    + intros Hdom.
      destruct (sync_light_dom _ _ _ _ _ _ H) as (k & Hk & Hdom').
      assert (Hin : is_Some (reg2 !! k)).
      { apply elem_of_dom. rewrite Hdom.
        apply (sync_lights_dom_mono found reg' new'). rewrite Hdom'.
        apply elem_of_union_l, elem_of_singleton. reflexivity. }
      destruct (sync_light_cases config light reg2 new_lights2)
        as [(e & He & Hwhy) | [(k' & Hk' & _ & Hn & _)
                              | (k' & d & b & Hk' & _ & Hd & Hs)]].
      * exfalso.
        destruct (sync_light_cases config light reg new_lights)
          as [(e1 & He1 & _) | [(k1 & Hk1 & Hex1 & _ & _)
                               | (k1 & d1 & b1 & Hk1 & Hex1 & _ & _)]];
          [congruence | |];
          (destruct Hwhy as [Hr | [(k2 & _ & Hex2) | (k2 & Hk2 & _ & Hn2 & _)]];
           [congruence | congruence |]);
          (assert (k2 = k) as -> by congruence);
          rewrite Hn2 in Hin; by destruct Hin.
      * assert (k' = k) as -> by congruence.
        rewrite Hn in Hin. by destruct Hin.
      * rewrite Hs.
        assert (Hsame : dom (<[k' := set_bri (bri light) (set_on (on light) d)]> reg2)
                        = dom reg2) by (apply dom_insert_lookup_L; eauto).
        destruct (IH reg' new'
                    (<[k' := set_bri (bri light) (set_on (on light) d)]> reg2)
                    new_lights2) as (H1 & H2 & H3).
        { rewrite Hsame. exact Hdom. }
        rewrite H1, H2, H3. auto.
    + simpl. intros Hdom.
      rewrite (sync_light_raise_dom _ _ _ _ _ reg2 new_lights2 H Hdom). auto.
Qed.

(** A record the registry has keeps its identity through the loop. *)
Lemma sync_lights_identity found reg new_lights k d :
  reg !! k = Some d ->
  exists v_on v_bri,
    (sync_lights config found reg new_lights).1.1 !! k
    = Some (set_bri v_bri (set_on v_on d)).
Proof.
  revert reg new_lights d.
  induction found as [|light found IH]; intros reg new_lights d Hd; simpl.
  - exists (on d), (bri d). rewrite Hd. by destruct d.
  - assert (Hself : exists v_on v_bri, reg !! k = Some (set_bri v_bri (set_on v_on d))).
    { exists (on d), (bri d). rewrite Hd. by destruct d. }
    destruct (sync_light_cases config light reg new_lights)
      as [(e & -> & _) | [(k' & _ & _ & Hn & ->)
                         | (k' & d' & b & _ & _ & Hd' & ->)]]; simpl.
    + exact Hself.
    + apply IH. rewrite lookup_insert_ne; [exact Hd|]. congruence.
    + destruct (decide (k' = k)) as [->|Hne].
      * assert (d' = d) as -> by congruence.
        destruct (IH (<[k := set_bri (bri light) (set_on (on light) d)]> reg)
                     new_lights _ (lookup_insert_eq _ _ _)) as (o & b' & ->).
        exists o, b'. by destruct d.
      * apply IH. by rewrite lookup_insert_ne.
Qed.

(** Entries with other keys leave the record under [k] alone. *)
Lemma sync_lights_other_keys found reg new_lights k :
  (forall light, light ∈ found -> py_hash (deviceId light) <> Ok k) ->
  (sync_lights config found reg new_lights).1.1 !! k = reg !! k.
Proof.
  revert reg new_lights.
  induction found as [|light found IH]; intros reg new_lights Hother; simpl.
  - reflexivity.
  - assert (Hl : py_hash (deviceId light) <> Ok k) by (apply Hother; left).
    assert (Hrest : forall l, l ∈ found -> py_hash (deviceId l) <> Ok k)
      by (intros l Hin; apply Hother; by right).
    destruct (sync_light_cases config light reg new_lights)
      as [(e & -> & _) | [(k' & Hk' & _ & _ & ->)
                         | (k' & d' & b & Hk' & _ & _ & ->)]]; simpl.
    + reflexivity.
    + rewrite IH by assumption. apply lookup_insert_ne. congruence.
    + rewrite IH by assumption. apply lookup_insert_ne. congruence.
Qed.

(** When the loop completes, the record of a key the registry had holds the
    [on] and [bri] of the last entry with that key, and is otherwise the
    record it was. *)
Lemma sync_lights_last_write pre light post reg new_lights k d :
  reg !! k = Some d ->
  py_hash (deviceId light) = Ok k ->
  (forall l, l ∈ post -> py_hash (deviceId l) <> Ok k) ->
  (sync_lights config (pre ++ light :: post) reg new_lights).2 = Ok tt ->
  (sync_lights config (pre ++ light :: post) reg new_lights).1.1 !! k
  = Some (set_bri (bri light) (set_on (on light) d)).
Proof.
  intros Hd Hk Hpost. rewrite sync_lights_app.
  destruct (sync_lights_identity pre reg new_lights k d Hd) as (o & b & Hmid).
  destruct (sync_lights config pre reg new_lights) as [[reg1 new1] [[]|e]];
    simpl in *; [|discriminate].
  destruct (sync_light_cases config light reg1 new1)
    as [(e & -> & _) | [(k' & Hk' & _ & Hn & _)
                       | (k' & d' & b' & Hk' & _ & Hd' & ->)]]; simpl.
  - discriminate.
  - congruence.
  - intros _. assert (k' = k) as -> by congruence.
    rewrite sync_lights_other_keys by assumption.
    rewrite lookup_insert_eq. f_equal.
    assert (d' = set_bri b (set_on o d)) as -> by congruence.
    by destruct d.
Qed.

(** The loop never inserts a record for an excluded id. *)
Lemma sync_lights_excluded found reg new_lights k :
  excludes config k ->
  reg !! k = None ->
  (sync_lights config found reg new_lights).1.1 !! k = None.
Proof.
  intros (options & v & Hcfg & Hget & Htrue).
  revert reg new_lights.
  induction found as [|light found IH]; intros reg new_lights Hreg; simpl.
  - exact Hreg.
  - destruct (sync_light_cases config light reg new_lights)
      as [(e & -> & _) | [(k' & Hk' & Hex & Hn & ->)
                         | (k' & d' & b & Hk' & _ & Hd' & ->)]]; simpl.
    + exact Hreg.
    + apply IH. rewrite lookup_insert_ne; [exact Hreg|].
      intros ->. unfold is_excluded in Hex. rewrite Hk' in Hex.
      unfold_bind. rewrite Hcfg, Hget, Htrue in Hex. discriminate.
    + apply IH. rewrite lookup_insert_ne; [exact Hreg|]. congruence.
Qed.

(** An entry for an excluded id the registry does not have stops the loop
    with [KeyError]. *)
Lemma sync_light_excluded_raises light reg new_lights k :
  excludes config k ->
  py_hash (deviceId light) = Ok k ->
  reg !! k = None ->
  sync_light config light reg new_lights = Raise KeyError.
Proof.
  intros (options & v & Hcfg & Hget & Htrue) Hk Hreg.
  unfold sync_light, is_excluded. rewrite Hk. unfold_bind.
  rewrite Hcfg, Hget, Htrue, Hreg. reflexivity.
Qed.

End ReconcileLoop.

(** ** The discovery pass *)

Section Discovery.

(** A call for which the test of line 120 holds does nothing. *)
Lemma discover_rate_limited self now_check now_fetch response :
  rate_limited self now_check = true ->
  discover_lights_and_sync_statuses self now_check now_fetch response
  = (Ok PyNone, self, []).
Proof.
  intros H.
  unfold discover_lights_and_sync_statuses. rewrite H. reflexivity.
Qed.

Lemma get_lights_eq self now response :
  get_lights self now response ["binary"; "dimmable"] (protocols self)
  = (found_lights response (protocols self), set_last_command_sent now self,
     [HttpGet (site_info_url self)]).
Proof. reflexivity. Qed.

(** The pass when the rate limit lets it through. *)
Lemma discover_fetch self now_check now_fetch response :
  rate_limited self now_check = false ->
  discover_lights_and_sync_statuses self now_check now_fetch response
  = let self1 := set_last_command_sent now_fetch self in
    match found_lights response (protocols self) with
    | Raise RequestException =>
        (Ok (PyBool false), self1,
         [HttpGet (site_info_url self); LogException "Error communicating with Houm"])
    | Raise e => (Raise e, self1, [HttpGet (site_info_url self)])
    | Ok found =>
        let s := sync_lights (config_device_data self) found (device_id_map self) [] in
        match s.2 with
        | Raise e => (Raise e, set_device_id_map s.1.1 self1, [HttpGet (site_info_url self)])
        | Ok _ =>
            (Ok PyNone, set_device_id_map s.1.1 self1,
             HttpGet (site_info_url self)
             :: (if is_empty s.1.2 then []
                 else [AddDevices (new_light_objects s.1.1 s.1.2)]))
        end
    end.
Proof.
  intros H.
  unfold discover_lights_and_sync_statuses. rewrite H, get_lights_eq.
  destruct (found_lights response (protocols self)) as [found|[]]; try reflexivity.
  simpl.
  destruct (sync_lights _ found _ []) as [[reg new_lights] [[]|e]]; reflexivity.
Qed.

(** A pass fetches at most once, writes nothing but the registry and the
    recorded time, and records the time whenever it fetches. *)
Lemma discover_frame self now_check now_fetch response :
  let p := discover_lights_and_sync_statuses self now_check now_fetch response in
  SITE_KEY p.1.2 = SITE_KEY self
  /\ config_device_data p.1.2 = config_device_data self
  /\ protocols p.1.2 = protocols self
  /\ (count is_fetch p.2 <= 1)%nat.
Proof.
  destruct (rate_limited self now_check) eqn:Hlt; [|rename Hlt into Hle].
  - rewrite discover_rate_limited by assumption. simpl. auto.
  - rewrite discover_fetch by assumption.
    destruct (found_lights response (protocols self)) as [found|[]]; cbn; auto.
    destruct (sync_lights _ found _ []) as [[reg new_lights] [[]|e]]; cbn; auto.
    destruct (is_empty new_lights); cbn; auto.
Qed.

(** A pass sends no state-changed notification, also when it overwrites
    [on] and [bri] of records. *)
Lemma discover_does_not_notify self now_check now_fetch response :
  count is_state_changed
    (discover_lights_and_sync_statuses self now_check now_fetch response).2 = 0%nat.
Proof.
  destruct (rate_limited self now_check) eqn:Hlt; [|rename Hlt into Hle].
  - by rewrite discover_rate_limited.
  - rewrite discover_fetch by assumption.
    destruct (found_lights response (protocols self)) as [found|[]]; cbn; auto.
    destruct (sync_lights _ found _ []) as [[reg new_lights] [[]|e]]; cbn; auto.
    destruct (is_empty new_lights); cbn; auto.
Qed.

End Discovery.

(** ** Rate limit *)





(** ** Failures of the fetch *)

(** C5: when the snapshot request raises [RequestException], a pass that
    fetches logs the exception and returns [False]; the registry is the one
    the pass started from (only the time of the fetch is recorded). *)
Theorem discover_network_failure self now_check now_fetch :
  rate_limited self now_check = false ->
  let p := discover_lights_and_sync_statuses self now_check now_fetch
             (Raise RequestException) in
  p = (Ok (PyBool false), set_last_command_sent now_fetch self,
       [HttpGet (site_info_url self);
        LogException "Error communicating with Houm"])
  /\ device_id_map p.1.2 = device_id_map self.
Proof.
  intros H p. subst p. rewrite discover_fetch by assumption.
  split; reflexivity.
Qed.

Lemma discover_network_failure_witness :
  let self :=
    mkHoumController "site" ∅ [] 3 {[ KStr "a" := lamp ]} in
  rate_limited self 4 = false
  /\ let p := discover_lights_and_sync_statuses self 4 5 (Raise RequestException) in
     p = (Ok (PyBool false), set_last_command_sent 5 self,
          [HttpGet (site_info_url self);
           LogException "Error communicating with Houm"])
     /\ device_id_map p.1.2 = device_id_map self.
Proof.
  assert (H : rate_limited (mkHoumController "site" ∅ [] 3 {[ KStr "a" := lamp ]}) 4 = false)
    by reflexivity.
  split; [exact H|].
  exact (discover_network_failure _ 4 5 H).
Defined.

(** C10: a response that parses to a mapping without a ['lights'] key makes a
    pass that fetches raise: [site_info.get('lights')] is [None], iterating
    it raises [TypeError], which is not a [RequestException], and
    [discover_lights_and_sync_statuses] lets it through. *)
Theorem discover_missing_lights_raises self now_check now_fetch site_info :
  dict_lookup "lights" site_info = None ->
  rate_limited self now_check = false ->
  py_get (PyDict site_info) "lights" = Ok PyNone
  /\ py_iter PyNone = Raise TypeError
  /\ TypeError <> RequestException
  /\ discover_lights_and_sync_statuses self now_check now_fetch (Ok (PyDict site_info))
     = (Raise TypeError, set_last_command_sent now_fetch self,
        [HttpGet (site_info_url self)]).
Proof.
  intros Hmiss Hle.
  assert (Hget : py_get (PyDict site_info) "lights" = Ok PyNone).
  { unfold py_get, py_get_default. by rewrite Hmiss. }
  repeat split; [assumption | discriminate |].
  rewrite discover_fetch by assumption.
  unfold found_lights. unfold_bind. rewrite Hget. reflexivity.
Qed.

Lemma discover_missing_lights_raises_witness :
  dict_lookup "lights" [("name", PyStr "Home")] = None
  /\ rate_limited (fresh_controller ∅) 2 = false
  /\ discover_lights_and_sync_statuses (fresh_controller ∅) 2 2
       (Ok (PyDict [("name", PyStr "Home")]))
     = (Raise TypeError, set_last_command_sent 2 (fresh_controller ∅),
        [HttpGet (site_info_url (fresh_controller ∅))]).
Proof.
  assert (H1 : dict_lookup "lights" [("name", PyStr "Home")] = None) by reflexivity.
  assert (H2 : rate_limited (fresh_controller ∅) 2 = false)
    by reflexivity.
  split; [exact H1|]. split; [exact H2|].
  exact (proj2 (proj2 (proj2
    (discover_missing_lights_raises (fresh_controller ∅) 2 2 _ H1 H2)))).
Defined.

(** ** Commands *)

(** C6: [HoumController.set_value] emits one ['apply/light'] event carrying
    the canonical pair.  For field ['on'] the payload has the value given
    as [on] and [bri] 255 when it is true, 0 when false; for field ['bri']
    it has the value given as [bri] and [value > 0] as [on]. *)
Theorem controller_set_value_canonical (device_id : pyval) :
  (forall b : bool,
     HoumController_set_value "on" device_id (PyBool b)
     = (Ok tt, [SocketEmit "apply/light"
                  (PyDict [("_id", device_id); ("on", PyBool b);
                           ("bri", PyInt (if b then 255 else 0))])]))
  /\ (forall v : Z,
        HoumController_set_value "bri" device_id (PyInt v)
        = (Ok tt, [SocketEmit "apply/light"
                     (PyDict [("_id", device_id); ("on", PyBool (0 <? v)%Z);
                              ("bri", PyInt v)])])).
Proof.
  split.
  - intros []; reflexivity.
  - intros v. reflexivity.
Qed.

(** The same for any value given for ['on']: its truth value chooses [bri]. *)
Lemma controller_set_value_on_any (device_id value : pyval) :
  HoumController_set_value "on" device_id value
  = (Ok tt, [SocketEmit "apply/light"
               (apply_light_payload device_id value
                  (PyInt (if py_truthy value then 255 else 0)))]).
Proof. unfold HoumController_set_value. simpl. by destruct (py_truthy value). Qed.

(** The ['bri'] half of the local normalisation: [set_value('bri', v)] on a
    record stores [v] and sets [on] to [v > 0]. *)
Lemma device_set_value_bri (v : Z) (self : HoumDevice) :
  HoumDevice_set_value "bri" (PyInt v) self
  = (Ok tt, set_on (PyBool (0 <? v)%Z) (set_bri (PyInt v) self),
     [SocketEmit "apply/light"
        (apply_light_payload (deviceId self) (PyBool (0 <? v)%Z) (PyInt v))]).
Proof. reflexivity. Qed.

(** C1, at the input where the code departs from it: [set_value('on', b)]
    on a record stores [b] in [on] and leaves [bri] as it was, while the
    command sent to the service carries [bri] 255 or 0.  On the record
    [lamp], off at brightness 0, turning on leaves the local brightness 0. *)
Theorem device_set_value_on_keeps_brightness :
  (forall (b : bool) (self : HoumDevice),
     HoumDevice_set_value "on" (PyBool b) self
     = (Ok tt, set_on (PyBool b) self,
        [SocketEmit "apply/light"
           (apply_light_payload (deviceId self) (PyBool b)
              (PyInt (if b then 255 else 0)))])
     /\ bri (set_on (PyBool b) self) = bri self)
  /\ bri (HoumDevice_set_value "on" (PyBool true) lamp).1.2 = PyInt 0
  /\ bri (HoumSwitch_turn_on lamp).1.2 = PyInt 0.
Proof.
  split; [|split; reflexivity].
  intros [] self; split; reflexivity.
Qed.

(** C7 fails on [lamp]: turning it on notifies nobody. *)
Lemma set_value_does_not_notify :
  count is_state_changed (HoumDevice_set_value "on" (PyBool true) lamp).2 = 0%nat
  /\ (notifies_once "on" (PyBool true) lamp -> False).
Proof. split; [reflexivity | discriminate]. Qed.

(** C7, amended: a call of a record's [set_value] sends no state-changed
    notification, for either field name (and for any name and value).  With
    a value of the field's type, a boolean for ['on'] and an integer for
    ['bri'], the call changes the local fields and forwards the command to
    the controller: one ['apply/light'] event, which is all it emits. *)
Theorem device_set_value_forwards_without_notifying :
  (forall name value self,
     count is_state_changed (HoumDevice_set_value name value self).2 = 0%nat)
  /\ (forall (b : bool) self,
        HoumDevice_set_value "on" (PyBool b) self
        = (Ok tt, set_on (PyBool b) self,
           [SocketEmit "apply/light"
              (PyDict [("_id", deviceId self); ("on", PyBool b);
                       ("bri", PyInt (if b then 255 else 0))])]))
  /\ (forall (v : Z) self,
        HoumDevice_set_value "bri" (PyInt v) self
        = (Ok tt, set_on (PyBool (0 <? v)%Z) (set_bri (PyInt v) self),
           [SocketEmit "apply/light"
              (PyDict [("_id", deviceId self); ("on", PyBool (0 <? v)%Z);
                       ("bri", PyInt v)])])).
Proof.
  split; [|split].
  - intros name value self. unfold HoumDevice_set_value, HoumController_set_value.
    destruct (String.eqb name "bri"), (String.eqb name "on"), (py_gt0 value);
      reflexivity.
  - intros [] self; reflexivity.
  - intros v self; reflexivity.
Qed.

(** ** Push updates *)

(** A push for an id the registry does not have, with all its fields, is
    logged and dropped: the [AttributeError] of the assignment to [None] is
    caught. *)
Lemma update_light_unknown_id self (id : string) v_on v_bri :
  device_id_map self !! KStr id = None ->
  update_light self (PyDict [("_id", PyStr id); ("on", v_on); ("bri", v_bri)])
  = (Ok tt, self,
     [LogError "Invalid data received from socket: ";
      LogErrorArgs ["'NoneType' object has no attribute 'bri'"]]).
Proof.
  intros H. unfold update_light. simpl. unfold_bind. simpl. rewrite H. reflexivity.
Qed.

(** C3, at the inputs where the code departs from it: a payload without
    ['_id'] makes [update_light] raise [KeyError], whatever the registry; a
    payload without ['bri'] does too; and a payload for a known id without
    ['on'] raises [KeyError] after [bri] of the record has been written.
    Only [AttributeError] is caught. *)
Theorem update_light_missing_field_raises :
  (forall self,
     update_light self (PyDict [("on", PyBool true); ("bri", PyInt 200)])
     = (Raise KeyError, self, []))
  /\ (forall self,
        update_light self (PyDict [("_id", PyStr "a"); ("on", PyBool true)])
        = (Raise KeyError, self, []))
  /\ (forall self d,
        let known := set_device_id_map (<[KStr "a" := d]> (device_id_map self)) self in
        update_light known (PyDict [("_id", PyStr "a"); ("bri", PyInt 200)])
        = (Raise KeyError,
           set_device_id_map
             (<[KStr "a" := set_bri (PyInt 200) d]> (device_id_map known)) known,
           [])).
Proof.
  split; [|split].
  - reflexivity.
  - intros self. unfold update_light. simpl. unfold_bind. simpl. reflexivity.
  - intros self d. unfold update_light. simpl. unfold_bind. simpl.
    rewrite lookup_insert_eq. reflexivity.
Qed.

(** ** Excluded ids *)

Lemma discover_excluded self now_check now_fetch response k :
  excludes (config_device_data self) k ->
  device_id_map self !! k = None ->
  device_id_map
    (discover_lights_and_sync_statuses self now_check now_fetch response).1.2 !! k
  = None.
Proof.
  intros Hex Hreg.
  destruct (rate_limited self now_check) eqn:Hlt; [|rename Hlt into Hle].
  - by rewrite discover_rate_limited.
  - rewrite discover_fetch by assumption.
    destruct (found_lights response (protocols self)) as [found|[]]; cbn; auto.
    pose proof (sync_lights_excluded _ found _ [] k Hex Hreg) as Hloop.
    destruct (sync_lights _ found _ []) as [[reg new_lights] [[]|e]]; cbn; auto.
Qed.

(** Over any number of passes, no record is inserted for an excluded id. *)
Lemma excluded_never_inserted passes self k :
  excludes (config_device_data self) k ->
  device_id_map self !! k = None ->
  device_id_map (run_passes passes self) !! k = None.
Proof.
  revert self.
  induction passes as [|[[now_check now_fetch] response] rest IH];
    intros self Hex Hreg; simpl.
  - exact Hreg.
  - apply IH.
    + destruct (discover_frame self now_check now_fetch response) as (_ & -> & _).
      exact Hex.
    + by apply discover_excluded.
Qed.

(** C2, at the input where the code departs from it: with [x] excluded and
    a snapshot of [a], [x], [b], the pass inserts [a], raises [KeyError] at
    [x], never reaches [b] and never announces [a]. *)
Theorem discover_excluded_entry_raises :
  let p :=
    discover_lights_and_sync_statuses (fresh_controller exclude_x) 5 5
      (Ok (snapshot [light_entry "a" "binary" false 0;
                     light_entry "x" "binary" true 255;
                     light_entry "b" "dimmable" true 120])) in
  p.1.1 = Raise KeyError
  /\ p.2 = [HttpGet "https://houmi.herokuapp.com/api/site/site"]
  /\ is_Some (device_id_map p.1.2 !! KStr "a")
  /\ device_id_map p.1.2 !! KStr "x" = None
  /\ device_id_map p.1.2 !! KStr "b" = None.
Proof.
  vm_compute. repeat split; eauto.
Qed.

(** ** Reconciliation *)

(** C8: reconciliation is idempotent.  After a pass that fetched, a second
    pass on the same response inserts no record (the registry has the same
    keys after it), does not call the announcement callback, and, when the
    rate limit lets it fetch, ends the way the first pass did. *)
Theorem reconcile_idempotent self t1 t2 t3 t4 response :
  rate_limited self t1 = false ->
  let first := discover_lights_and_sync_statuses self t1 t2 response in
  let second := discover_lights_and_sync_statuses first.1.2 t3 t4 response in
  dom (device_id_map second.1.2) = dom (device_id_map first.1.2)
  /\ count is_announcement second.2 = 0%nat
  /\ (rate_limited first.1.2 t3 = false -> second.1.1 = first.1.1).
Proof.
  intros Hle first second.
  destruct (discover_frame self t1 t2 response) as (_ & Hcfg & Hprot & _).
  fold first in Hcfg, Hprot.
  destruct (rate_limited first.1.2 t3) eqn:Hlt; [|rename Hlt into Hle2].
  - subst second. rewrite discover_rate_limited by assumption. simpl.
    split; [reflexivity|]. split; [reflexivity|].
    intros H. congruence.
  - subst second. rewrite (discover_fetch first.1.2) by assumption.
    rewrite Hprot, Hcfg. clear Hle2 Hcfg Hprot.
    subst first. rewrite (discover_fetch self) by assumption.
    destruct (found_lights response (protocols self)) as [found|[]]; cbn; auto.
    pose proof (sync_lights_again (config_device_data self) found
                  (device_id_map self) []) as Hagain.
    destruct (sync_lights _ found (device_id_map self) []) as [[reg1 new1] r1].
    specialize (Hagain reg1 [] eq_refl). simpl in Hagain.
    destruct r1 as [[]|e]; cbn;
      destruct (sync_lights _ found reg1 []) as [[reg2 new2] r2];
      simpl in Hagain; destruct Hagain as (Hdom & -> & ->); cbn; auto.
Qed.

Lemma reconcile_idempotent_witness :
  let self := fresh_controller ∅ in
  let response :=
    Ok (snapshot [light_entry "a" "binary" false 0;
                  light_entry "b" "dimmable" true 120]) in
  rate_limited self 5 = false
  /\ let first := discover_lights_and_sync_statuses self 5 5 response in
     let second := discover_lights_and_sync_statuses first.1.2 7 7 response in
     dom (device_id_map second.1.2) = dom (device_id_map first.1.2)
     /\ count is_announcement second.2 = 0%nat
     /\ (rate_limited first.1.2 7 = false -> second.1.1 = first.1.1).
Proof.
  assert (H : rate_limited (fresh_controller ∅) 5 = false)
    by reflexivity.
  split; [exact H|].
  exact (reconcile_idempotent (fresh_controller ∅) 5 5 7 7 _ H).
Defined.

(** The two passes of the example above: the first inserts and announces
    [a] and [b], the second fetches and announces nothing. *)
Example reconcile_twice :
  let response :=
    Ok (snapshot [light_entry "a" "binary" false 0;
                  light_entry "b" "dimmable" true 120]) in
  let first := discover_lights_and_sync_statuses (fresh_controller ∅) 5 5 response in
  let second := discover_lights_and_sync_statuses first.1.2 7 7 response in
  count is_announcement first.2 = 1%nat
  /\ size (device_id_map first.1.2) = 2%nat
  /\ count is_fetch second.2 = 1%nat
  /\ count is_announcement second.2 = 0%nat
  /\ size (device_id_map second.1.2) = 2%nat.
Proof. vm_compute. repeat split. Qed.

(** A pass keeps every record the registry has, and its identity. *)
Lemma discover_keeps_record self now_check now_fetch response k d :
  device_id_map self !! k = Some d ->
  exists d',
    device_id_map
      (discover_lights_and_sync_statuses self now_check now_fetch response).1.2 !! k
    = Some d'
    /\ same_identity d d'.
Proof.
  intros Hd.
  destruct (rate_limited self now_check) eqn:Hlt; [|rename Hlt into Hle].
  - rewrite discover_rate_limited by assumption. simpl.
    exists d. split; [assumption | apply same_identity_refl].
  - rewrite discover_fetch by assumption.
    destruct (found_lights response (protocols self)) as [found|e].
    + destruct (sync_lights_identity (config_device_data self) found
                  (device_id_map self) [] k d Hd) as (o & b & Hk).
      exists (set_bri b (set_on o d)). split.
      * destruct (sync_lights _ found _ []) as [[reg new_lights] [[]|e]]; exact Hk.
      * apply same_identity_update, same_identity_refl.
    + exists d. split; [|apply same_identity_refl]. destruct e; exact Hd.
Qed.





(** The pass of the example above: [lamp], a dimmer that is off, takes [on]
    and [bri] from an entry that calls it binary, and stays a dimmer. *)
Example reconcile_lamp :
  let self := mkHoumController "site" ∅ [] 0 {[ KStr "a" := lamp ]} in
  let p := discover_lights_and_sync_statuses self 5 5
             (Ok (snapshot [light_entry "a" "binary" true 77])) in
  p.1.1 = Ok PyNone
  /\ p.2 = [HttpGet "https://houmi.herokuapp.com/api/site/site"]
  /\ device_id_map p.1.2 !! KStr "a"
     = Some (mkHoumDevice HoumDimmer (PyBool true) (PyInt 77) (PyStr "a")
               (PyStr "dimmable") (PyStr "Lamp") (PyStr "knx")).
Proof. vm_compute. repeat split. Qed.

(** * Further properties of the code *)

(** ** Device commands *)

(** [HoumDimmer.turn_on]: without a brightness the dimmer goes to 255; with
    one, the record stores it, [is_on] becomes [brightness > 0] and the
    command sent carries the same pair.  So [turn_on(brightness=0)] leaves
    the light off, locally and in the command. *)
Theorem dimmer_turn_on_brightness (kw : option Z) (self : HoumDevice) :
  cls self = HoumDimmer ->
  let v := default 255%Z kw in
  let after := turn_on (PyInt <$> kw) self in
  after.1.1 = Ok tt
  /\ brightness after.1.2 = PyInt v
  /\ is_on after.1.2 = PyBool (0 <? v)%Z
  /\ same_identity self after.1.2
  /\ after.2 = [SocketEmit "apply/light"
                  (PyDict [("_id", deviceId self); ("on", PyBool (0 <? v)%Z);
                           ("bri", PyInt v)])].
Proof.
  intros Hcls v after. subst v after. unfold turn_on. rewrite Hcls.
  destruct kw as [z|]; simpl; repeat split; reflexivity.
Qed.

Lemma dimmer_turn_on_brightness_witness :
  cls lamp = HoumDimmer
  /\ let after := turn_on (Some (PyInt 0)) lamp in
     after.1.1 = Ok tt
     /\ brightness after.1.2 = PyInt 0
     /\ is_on after.1.2 = PyBool false
     /\ same_identity lamp after.1.2
     /\ after.2 = [SocketEmit "apply/light"
                     (PyDict [("_id", deviceId lamp); ("on", PyBool false);
                              ("bri", PyInt 0)])].
Proof.
  split; [reflexivity|].
  exact (dimmer_turn_on_brightness (Some 0%Z) lamp eq_refl).
Defined.

(** [HoumSwitch]: [turn_on] and [turn_off] set [is_on] and send 255 or 0 as
    brightness; [turn_on] takes no brightness, so a call that gives one
    raises [TypeError] before anything is written or sent. *)
Theorem switch_turn_on_off (self : HoumDevice) :
  cls self = HoumSwitch ->
  is_on (turn_on None self).1.2 = PyBool true
  /\ (turn_on None self).2
     = [SocketEmit "apply/light"
          (PyDict [("_id", deviceId self); ("on", PyBool true); ("bri", PyInt 255)])]
  /\ is_on (turn_off self).1.2 = PyBool false
  /\ (turn_off self).2
     = [SocketEmit "apply/light"
          (PyDict [("_id", deviceId self); ("on", PyBool false); ("bri", PyInt 0)])]
  /\ (forall v, turn_on (Some v) self = (Raise TypeError, self, [])).
Proof.
  intros Hcls. unfold turn_on. rewrite Hcls. repeat split; reflexivity.
Qed.

Lemma switch_turn_on_off_witness :
  cls plug = HoumSwitch
  /\ is_on (turn_on None plug).1.2 = PyBool true
  /\ (turn_on None plug).2
     = [SocketEmit "apply/light"
          (PyDict [("_id", deviceId plug); ("on", PyBool true); ("bri", PyInt 255)])]
  /\ is_on (turn_off plug).1.2 = PyBool false
  /\ (turn_off plug).2
     = [SocketEmit "apply/light"
          (PyDict [("_id", deviceId plug); ("on", PyBool false); ("bri", PyInt 0)])]
  /\ (forall v, turn_on (Some v) plug = (Raise TypeError, plug, [])).
Proof.
  split; [reflexivity|].
  exact (switch_turn_on_off plug eq_refl).
Defined.

(** [set_value('bri', v)] with a [v] that is no number (as [None]) raises
    [TypeError] at [v > 0]: by then [bri] holds [v], [on] is as it was, and
    no command is sent. *)
Theorem set_value_bri_not_a_number (value : pyval) (self : HoumDevice) :
  py_gt0 value = Raise TypeError ->
  HoumDevice_set_value "bri" value self = (Raise TypeError, set_bri value self, [])
  /\ on (set_bri value self) = on self.
Proof.
  intros H. unfold HoumDevice_set_value. simpl. rewrite H. split; reflexivity.
Qed.

Lemma set_value_bri_not_a_number_witness :
  py_gt0 PyNone = Raise TypeError
  /\ HoumDevice_set_value "bri" PyNone lamp = (Raise TypeError, set_bri PyNone lamp, [])
  /\ on (set_bri PyNone lamp) = on lamp.
Proof.
  split; [reflexivity|].
  exact (set_value_bri_not_a_number PyNone lamp eq_refl).
Defined.

(** A field name other than ['on'] and ['bri'] changes nothing in the record,
    and the command is sent all the same, as for a brightness: [on] is
    [value > 0], [bri] is 255 or 0. *)
Theorem set_value_other_name (name : string) (v : Z) (self : HoumDevice) :
  name <> "on" -> name <> "bri" ->
  HoumDevice_set_value name (PyInt v) self
  = (Ok tt, self,
     [SocketEmit "apply/light"
        (PyDict [("_id", deviceId self); ("on", PyBool (0 <? v)%Z);
                 ("bri", PyInt (if (v =? 0)%Z then 0 else 255))])])
  /\ get_value name self = PyNone.
Proof.
  intros Hon Hbri.
  apply String.eqb_neq in Hon. apply String.eqb_neq in Hbri.
  unfold HoumDevice_set_value, HoumController_set_value, get_value.
  rewrite Hon, Hbri. simpl. destruct (v =? 0)%Z; split; reflexivity.
Qed.

Lemma set_value_other_name_witness :
  "level" <> "on" /\ "level" <> "bri"
  /\ HoumDevice_set_value "level" (PyInt 40) lamp
     = (Ok tt, lamp,
        [SocketEmit "apply/light"
           (PyDict [("_id", deviceId lamp); ("on", PyBool true);
                    ("bri", PyInt 255)])])
  /\ get_value "level" lamp = PyNone.
Proof.
  assert (H1 : "level" <> "on") by discriminate.
  assert (H2 : "level" <> "bri") by discriminate.
  split; [exact H1|]. split; [exact H2|].
  exact (set_value_other_name "level" 40 lamp H1 H2).
Defined.

(** [HoumController.set_value] sends one event or none: it sends none
    exactly when it raises, and it raises only [TypeError], only for a field
    other than ['on'], on a value that is no number. *)
Theorem controller_set_value_one_or_none (name : string) (device_id value : pyval) :
  let p := HoumController_set_value name device_id value in
  (p.1 = Ok tt /\ exists v_on v_bri,
      p.2 = [SocketEmit "apply/light" (apply_light_payload device_id v_on v_bri)])
  \/ (p.1 = Raise TypeError /\ p.2 = [] /\ name <> "on"
      /\ py_gt0 value = Raise TypeError).
Proof.
  unfold HoumController_set_value.
  destruct (String.eqb name "on") eqn:Hon.
  - left. split; [reflexivity|]. eauto.
  - apply String.eqb_neq in Hon.
    destruct value; simpl; try (right; repeat split; [assumption]);
      try (right; repeat split; assumption); left; split; eauto.
Qed.

(** ** What [get_lights] finds *)

Section GetLights.

Lemma py_eq_str_true v s : py_eq_str v s = true -> v = PyStr s.
Proof.
  destruct v; simpl; try discriminate.
  intros H. apply String.eqb_eq in H. by subst.
Qed.

Lemma py_in_strs_elem v l :
  py_in_strs v l = true <-> exists s, s ∈ l /\ v = PyStr s.
Proof.
  unfold py_in_strs. rewrite existsb_exists. split.
  - intros (s & Hin & Heq). exists s. split.
    + by apply list_elem_of_In.
    + by apply py_eq_str_true.
  - intros (s & Hin & ->). exists s. split.
    + by apply list_elem_of_In.
    + simpl. apply String.eqb_refl.
Qed.

(** On a mapping, the constructor reads the six fields, [None] for a
    missing one; on anything else it raises. *)
Lemma HoumDevice_init_dict c e :
  HoumDevice_init c (PyDict e)
  = Ok (mkHoumDevice c
          (default PyNone (dict_lookup "on" e))
          (default PyNone (dict_lookup "bri" e))
          (default PyNone (dict_lookup "_id" e))
          (default PyNone (dict_lookup "type" e))
          (default PyNone (dict_lookup "name" e))
          (default PyNone (dict_lookup "protocol" e))).
Proof.
  unfold HoumDevice_init, py_get, py_get_default. unfold_bind.
  repeat (match goal with |- context [dict_lookup ?k e] =>
            destruct (dict_lookup k e) end); reflexivity.
Qed.

(** An entry gives a device only when it is a mapping whose ['type'] is
    ['dimmable'] or ['binary'], and the device is the one the constructor
    of that class builds from the entry. *)
Lemma build_device_sound light ds d :
  build_device light = Ok ds -> d ∈ ds ->
  well_typed_device d
  /\ exists e, light = PyDict e /\ HoumDevice_init (cls d) light = Ok d.
Proof.
  unfold build_device.
  destruct light as [| b | z | s | l | e]; simpl; try discriminate.
  - unfold_bind. destruct (str_contains "type" s); simpl; [discriminate|].
    intros [= <-] Hin. by apply elem_of_nil in Hin.
  - unfold_bind. destruct (existsb _ l); simpl; [discriminate|].
    intros [= <-] Hin. by apply elem_of_nil in Hin.
  - unfold_bind. destruct (bool_decide _); simpl.
    2:{ intros [= <-] Hin. by apply elem_of_nil in Hin. }
    destruct (py_eq_str _ "dimmable") eqn:Hdim;
      [|destruct (py_eq_str _ "binary") eqn:Hbin].
    + rewrite HoumDevice_init_dict. simpl.
      intros [= <-] Hin. apply list_elem_of_singleton in Hin. subst d.
      apply py_eq_str_true in Hdim. split.
      * left. simpl. auto.
      * exists e. split; [reflexivity|]. apply HoumDevice_init_dict.
    + rewrite HoumDevice_init_dict. simpl.
      intros [= <-] Hin. apply list_elem_of_singleton in Hin. subst d.
      apply py_eq_str_true in Hbin. split.
      * right. simpl. auto.
      * exists e. split; [reflexivity|]. apply HoumDevice_init_dict.
    + intros [= <-] Hin. by apply elem_of_nil in Hin.
Qed.

Lemma build_devices_sound ls devices d :
  build_devices ls = Ok devices -> d ∈ devices ->
  well_typed_device d
  /\ exists e, PyDict e ∈ ls /\ HoumDevice_init (cls d) (PyDict e) = Ok d.
Proof.
  revert devices.
  induction ls as [|light ls IH]; intros devices; simpl.
  - intros [= <-] Hin. by apply elem_of_nil in Hin.
  - unfold_bind.
    destruct (build_device light) as [this|] eqn:Hthis; [|discriminate].
    destruct (build_devices ls) as [more|]; [|discriminate].
    intros [= <-] Hin. apply elem_of_app in Hin as [Hin|Hin].
    + destruct (build_device_sound _ _ _ Hthis Hin) as (Hty & e & -> & Hinit).
      split; [assumption|]. exists e. split; [left | assumption].
    + destruct (IH more eq_refl Hin) as (Hty & e & He & Hinit).
      split; [assumption|]. exists e. split; [by right | assumption].
Qed.

(** What passes the filters was among the devices and is allowed by every
    filter that is not empty. *)
Lemma filter_devices_sound type_filter protocol_filter devices d :
  d ∈ filter_devices type_filter protocol_filter devices ->
  d ∈ devices
  /\ (type_filter <> [] -> py_in_strs (type d) type_filter = true)
  /\ (protocol_filter <> [] -> py_in_strs (protocol d) protocol_filter = true).
Proof.
  unfold filter_devices.
  destruct type_filter as [|t tf], protocol_filter as [|p pf]; simpl.
  - intros H. split; [assumption|]. split; congruence.
  - intros H. apply list_elem_of_In, filter_In in H as [H1 H2].
    split; [by apply list_elem_of_In|]. split; [congruence|auto].
  - intros H. apply list_elem_of_In, filter_In in H as [H1 H2].
    split; [by apply list_elem_of_In|]. split; [|congruence].
    intros _. by rewrite andb_true_r in H2.
  - intros H. apply list_elem_of_In, filter_In in H as [H1 H2].
    split; [by apply list_elem_of_In|]. apply andb_true_iff in H2 as [H2 H3].
    split; auto.
Qed.

End GetLights.

(** Every device [get_lights] returns was built from a mapping among the
    entries of ['lights'], has the class of its type ([HoumDimmer] for
    ['dimmable'], [HoumSwitch] for ['binary']), and is allowed by each
    filter that is not empty. *)
Theorem get_lights_sound self now response type_filter protocol_filter found d :
  (get_lights self now response type_filter protocol_filter).1.1 = Ok found ->
  d ∈ found ->
  well_typed_device d
  /\ (type_filter <> [] -> py_in_strs (type d) type_filter = true)
  /\ (protocol_filter <> [] -> py_in_strs (protocol d) protocol_filter = true)
  /\ exists site_info lights ls e,
       response = Ok site_info
       /\ py_get site_info "lights" = Ok lights
       /\ py_iter lights = Ok ls
       /\ PyDict e ∈ ls
       /\ HoumDevice_init (cls d) (PyDict e) = Ok d.
Proof.
  unfold get_lights. simpl. unfold_bind.
  destruct response as [site_info|]; [|discriminate].
  destruct (py_get site_info "lights") as [lights|] eqn:Hlights; [|discriminate].
  destruct (py_iter lights) as [ls|] eqn:Hls; [|discriminate].
  destruct (build_devices ls) as [devices|] eqn:Hdev; [|discriminate].
  intros [= <-] Hin.
  apply filter_devices_sound in Hin as (Hin & Htf & Hpf).
  destruct (build_devices_sound _ _ _ Hdev Hin) as (Hty & e & He & Hinit).
  split; [assumption|]. split; [assumption|]. split; [assumption|].
  exists site_info, lights, ls, e. auto.
Qed.

Lemma get_lights_sound_witness :
  let self := fresh_controller ∅ in
  let response :=
    Ok (snapshot [light_entry "a" "binary" false 0; PyStr "note";
                  light_entry "b" "dimmable" true 120]) in
  let d := mkHoumDevice HoumDimmer (PyBool true) (PyInt 120) (PyStr "b")
             (PyStr "dimmable") (PyStr "Lamp") (PyStr "knx") in
  let found := [d] in
  (get_lights self 5 response ["dimmable"] ["knx"]).1.1 = Ok found
  /\ d ∈ found
  /\ well_typed_device d
  /\ py_in_strs (protocol d) ["knx"] = true.
Proof.
  assert (H1 : (get_lights (fresh_controller ∅) 5
                  (Ok (snapshot [light_entry "a" "binary" false 0; PyStr "note";
                                 light_entry "b" "dimmable" true 120]))
                  ["dimmable"] ["knx"]).1.1
               = Ok [mkHoumDevice HoumDimmer (PyBool true) (PyInt 120) (PyStr "b")
                       (PyStr "dimmable") (PyStr "Lamp") (PyStr "knx")])
    by reflexivity.
  assert (H2 : mkHoumDevice HoumDimmer (PyBool true) (PyInt 120) (PyStr "b")
                 (PyStr "dimmable") (PyStr "Lamp") (PyStr "knx")
               ∈ [mkHoumDevice HoumDimmer (PyBool true) (PyInt 120) (PyStr "b")
                    (PyStr "dimmable") (PyStr "Lamp") (PyStr "knx")])
    by (apply list_elem_of_singleton; reflexivity).
  pose proof (get_lights_sound _ _ _ _ _ _ _ H1 H2) as (Hty & _ & Hpf & _).
  split; [exact H1|]. split; [exact H2|]. split; [exact Hty|].
  apply Hpf. discriminate.
Defined.

Section GetLightsComplete.

Lemma build_devices_app pre rest :
  build_devices (pre ++ rest)
  = (a ← build_devices pre; b ← build_devices rest; Ok (a ++ b)).
Proof.
  induction pre as [|light pre IH]; simpl; unfold_bind.
  - by destruct (build_devices rest).
  - destruct (build_device light) as [this|]; [|reflexivity].
    unfold_bind. rewrite IH.
    destruct (build_devices pre) as [a|]; [|reflexivity].
    destruct (build_devices rest) as [b|]; [|reflexivity].
    by rewrite app_assoc.
Qed.

(** An entry that makes the loop raise raises [TypeError] (a number, a
    boolean or [None] has no [in]) or [AttributeError] (a string or a list
    that contains ['type'] has no [get]). *)
Lemma build_device_raises light e :
  build_device light = Raise e -> e = TypeError \/ e = AttributeError.
Proof.
  unfold build_device.
  destruct light as [| b | z | s | l | d]; simpl; unfold_bind;
    try (intros [= <-]; by left).
  - destruct (str_contains "type" s); simpl; [|discriminate].
    intros [= <-]. by right.
  - destruct (existsb _ l); simpl; [|discriminate].
    intros [= <-]. by right.
  - destruct (bool_decide _); simpl; [|discriminate].
    destruct (py_eq_str _ "dimmable");
      [|destruct (py_eq_str _ "binary")];
      try rewrite HoumDevice_init_dict; discriminate.
Qed.

Lemma build_device_dict c e tyname :
  (c = HoumDimmer /\ tyname = "dimmable") \/ (c = HoumSwitch /\ tyname = "binary") ->
  dict_lookup "type" e = Some (PyStr tyname) ->
  exists d, build_device (PyDict e) = Ok [d] /\ HoumDevice_init c (PyDict e) = Ok d.
Proof.
  intros Hc Hty. unfold build_device. simpl. unfold_bind. rewrite Hty. simpl.
  rewrite !HoumDevice_init_dict.
  destruct Hc as [[-> ->] | [-> ->]]; simpl; eexists;
    (split; [reflexivity | rewrite Hty; reflexivity]).
Qed.

Lemma build_devices_complete ls devices c e tyname :
  (c = HoumDimmer /\ tyname = "dimmable") \/ (c = HoumSwitch /\ tyname = "binary") ->
  build_devices ls = Ok devices ->
  PyDict e ∈ ls ->
  dict_lookup "type" e = Some (PyStr tyname) ->
  exists d, d ∈ devices /\ HoumDevice_init c (PyDict e) = Ok d.
Proof.
  intros Hc Hdev Hin Hty.
  apply list_elem_of_split in Hin as (pre & post & ->).
  rewrite build_devices_app in Hdev. simpl in Hdev. unfold_bind.
  destruct (build_devices pre) as [a|]; [|discriminate].
  destruct (build_device_dict c e tyname Hc Hty) as (d & Hd & Hinit).
  rewrite Hd in Hdev.
  destruct (build_devices post) as [b|]; [|discriminate].
  injection Hdev as <-.
  exists d. split; [|assumption].
  apply elem_of_app. right. simpl. left.
Qed.

End GetLightsComplete.

(** When the discovery's [get_lights] returns, it has found every entry of
    the ['lights'] list that is a mapping of type ['dimmable'] or ['binary']
    and whose protocol the protocol filter allows (any protocol when the
    filter is empty). *)
Theorem get_lights_complete self now site_info ls protocol_filter found c e tyname :
  (c = HoumDimmer /\ tyname = "dimmable") \/ (c = HoumSwitch /\ tyname = "binary") ->
  (get_lights self now (Ok (PyDict site_info)) ["binary"; "dimmable"]
     protocol_filter).1.1 = Ok found ->
  dict_lookup "lights" site_info = Some (PyList ls) ->
  PyDict e ∈ ls ->
  dict_lookup "type" e = Some (PyStr tyname) ->
  (protocol_filter = []
   \/ exists p, p ∈ protocol_filter /\ dict_lookup "protocol" e = Some (PyStr p)) ->
  exists d, d ∈ found /\ HoumDevice_init c (PyDict e) = Ok d.
Proof.
  intros Hc Hfound Hlights Hin Hty Hprot.
  unfold get_lights in Hfound. simpl in Hfound. unfold_bind.
  rewrite Hlights in Hfound. simpl in Hfound.
  destruct (build_devices ls) as [devices|] eqn:Hdev; [|discriminate].
  injection Hfound as <-.
  destruct (build_devices_complete _ _ _ _ _ Hc Hdev Hin Hty) as (d & Hd & Hinit).
  exists d. split; [|assumption].
  rewrite HoumDevice_init_dict in Hinit. injection Hinit as <-.
  unfold filter_devices. simpl.
  apply list_elem_of_In, filter_In. split; [by apply list_elem_of_In|].
  simpl. rewrite Hty. simpl. apply andb_true_iff. split.
  - destruct Hc as [[_ ->] | [_ ->]]; reflexivity.
  - destruct Hprot as [-> | (p & Hp & Hlook)]; [reflexivity|].
    rewrite Hlook. simpl. apply orb_true_iff. right.
    apply py_in_strs_elem. eauto.
Qed.

Lemma get_lights_complete_witness :
  let site_info :=
    [("lights", PyList [light_entry "a" "binary" false 0;
                        light_entry "b" "dimmable" true 120])] in
  let e := [("_id", PyStr "b"); ("type", PyStr "dimmable"); ("name", PyStr "Lamp");
            ("protocol", PyStr "knx"); ("on", PyBool true); ("bri", PyInt 120)] in
  let found :=
    [mkHoumDevice HoumSwitch (PyBool false) (PyInt 0) (PyStr "a")
       (PyStr "binary") (PyStr "Lamp") (PyStr "knx");
     mkHoumDevice HoumDimmer (PyBool true) (PyInt 120) (PyStr "b")
       (PyStr "dimmable") (PyStr "Lamp") (PyStr "knx")] in
  (get_lights (fresh_controller ∅) 5 (Ok (PyDict site_info)) ["binary"; "dimmable"]
     ["knx"; "zwave"]).1.1 = Ok found
  /\ exists d, d ∈ found /\ HoumDevice_init HoumDimmer (PyDict e) = Ok d.
Proof.
  split; [reflexivity|].
  apply (get_lights_complete (fresh_controller ∅) 5
           [("lights", PyList [light_entry "a" "binary" false 0;
                               light_entry "b" "dimmable" true 120])]
           [light_entry "a" "binary" false 0; light_entry "b" "dimmable" true 120]
           ["knx"; "zwave"] _ HoumDimmer _ "dimmable").
  - left. split; reflexivity.
  - reflexivity.
  - reflexivity.
  - right. left.
  - reflexivity.
  - right. exists "knx". split; [left | reflexivity].
Defined.

(** One entry the loop of [get_lights] cannot handle loses the whole
    snapshot: the pass raises the entry's exception ([TypeError] or
    [AttributeError], which the pass does not catch) with the registry as it
    was, whatever the entries before and after it. *)
Theorem discover_malformed_entry self now_check now_fetch site_info pre bad post e :
  dict_lookup "lights" site_info = Some (PyList (pre ++ bad :: post)) ->
  (exists devices, build_devices pre = Ok devices) ->
  build_device bad = Raise e ->
  rate_limited self now_check = false ->
  (e = TypeError \/ e = AttributeError)
  /\ discover_lights_and_sync_statuses self now_check now_fetch (Ok (PyDict site_info))
     = (Raise e, set_last_command_sent now_fetch self, [HttpGet (site_info_url self)]).
Proof.
  intros Hlights [devices Hpre] Hbad Hle.
  pose proof (build_device_raises _ _ Hbad) as He.
  split; [assumption|].
  rewrite discover_fetch by assumption.
  unfold found_lights. simpl. unfold_bind. rewrite Hlights. simpl.
  rewrite build_devices_app. unfold_bind. rewrite Hpre. simpl. unfold_bind.
  rewrite Hbad.
  destruct He as [-> | ->]; reflexivity.
Qed.

Lemma discover_malformed_entry_witness :
  let self := mkHoumController "site" ∅ [] 0 {[ KStr "a" := lamp ]} in
  let site_info :=
    [("lights", PyList ([light_entry "a" "dimmable" true 200] ++ PyNone
                          :: [light_entry "b" "binary" true 255]))] in
  discover_lights_and_sync_statuses self 5 5 (Ok (PyDict site_info))
  = (Raise TypeError, set_last_command_sent 5 self, [HttpGet (site_info_url self)]).
Proof.
  refine (proj2 (discover_malformed_entry
                   (mkHoumController "site" ∅ [] 0 {[ KStr "a" := lamp ]}) 5 5
                   [("lights", PyList ([light_entry "a" "dimmable" true 200] ++ PyNone
                                         :: [light_entry "b" "binary" true 255]))]
                   [light_entry "a" "dimmable" true 200] PyNone
                   [light_entry "b" "binary" true 255] TypeError
                   eq_refl _ eq_refl _)).
  - eexists. reflexivity.
  - reflexivity.
Defined.

(** ** What a discovery pass does to the registry *)

Section PassEffects.

Lemma same_identity_trans d1 d2 d3 :
  same_identity d1 d2 -> same_identity d2 d3 -> same_identity d1 d3.
Proof.
  unfold same_identity. intros (? & ? & ? & ? & ?) (? & ? & ? & ? & ?).
  repeat split; congruence.
Qed.

(** When the loop completes, the keys it appended are, without repeats,
    the keys of the entries that the registry did not have; the registry
    has gained exactly these. *)
Lemma sync_lights_completes config found reg new_lights reg' new_lights' :
  sync_lights config found reg new_lights = (reg', new_lights', Ok tt) ->
  exists added,
    new_lights' = new_lights ++ added
    /\ NoDup added
    /\ (forall k, k ∈ added <->
          reg !! k = None
          /\ exists l, l ∈ found /\ py_hash (deviceId l) = Ok k)
    /\ dom reg' = dom reg ∪ list_to_set added
    /\ (forall l, l ∈ found ->
          exists k, py_hash (deviceId l) = Ok k /\ is_Some (reg' !! k)).
Proof.
  revert reg new_lights.
  induction found as [|light found IH]; intros reg new_lights; simpl.
  - intros [= <- <-]. exists []. rewrite app_nil_r.
    split; [reflexivity|]. split; [constructor|]. split; [|split].
    + intros k. split.
      * intros H. by apply elem_of_nil in H.
      * intros (_ & l & H & _). by apply elem_of_nil in H.
    + simpl. by rewrite union_empty_r_L.
    + intros l H. by apply elem_of_nil in H.
  - destruct (sync_light_cases config light reg new_lights)
      as [(e & -> & _) | [(k & Hk & _ & Hn & ->)
                         | (k & d & b & Hk & _ & Hd & ->)]]; [discriminate | |].
    + (* the entry is inserted *)
      intros H.
      destruct (IH _ _ H) as (added & -> & Hnodup & Hmem & Hdom & Hall).
      assert (Hk_in : is_Some (reg' !! k)).
      { apply elem_of_dom. rewrite Hdom, dom_insert_L.
        apply elem_of_union_l, elem_of_union_l, elem_of_singleton. reflexivity. }
      assert (Hk_not : k ∉ added).
      { intros Hin. apply Hmem in Hin as [Hnone _].
        by rewrite lookup_insert_eq in Hnone. }
      exists (k :: added). rewrite <- app_assoc. simpl.
      split; [reflexivity|]. split; [by constructor|]. split; [|split].
      * intros k'. rewrite elem_of_cons, Hmem. split.
        -- intros [-> | (Hnone & l & Hl & Hkl)].
           ++ split; [assumption|]. exists light. split; [left | assumption].
           ++ destruct (decide (k = k')) as [->|Hne];
                [by rewrite lookup_insert_eq in Hnone|].
              rewrite lookup_insert_ne in Hnone by assumption.
              split; [assumption|]. exists l. split; [by right | assumption].
        -- intros (Hnone & l & Hl & Hkl).
           destruct (decide (k' = k)) as [->|Hne]; [by left|right].
           split; [by rewrite lookup_insert_ne|].
           apply elem_of_cons in Hl as [-> | Hl]; [congruence|]. eauto.
      * rewrite Hdom, dom_insert_L. simpl.
        apply set_eq. intros x. rewrite !elem_of_union. tauto.
      * intros l Hl. apply elem_of_cons in Hl as [-> | Hl]; eauto.
    + (* the entry updates a record *)
      intros H.
      destruct (IH _ _ H) as (added & -> & Hnodup & Hmem & Hdom & Hall).
      assert (Hsame : dom (<[k := set_bri (bri light) (set_on (on light) d)]> reg)
                      = dom reg) by (apply dom_insert_lookup_L; eauto).
      exists added. split; [reflexivity|]. split; [assumption|]. split; [|split].
      * intros k'. rewrite Hmem. split.
        -- intros (Hnone & l & Hl & Hkl).
           destruct (decide (k = k')) as [->|Hne];
             [by rewrite lookup_insert_eq in Hnone|].
           rewrite lookup_insert_ne in Hnone by assumption.
           split; [assumption|]. exists l. split; [by right | assumption].
        -- intros (Hnone & l & Hl & Hkl).
           assert (Hne : k ≠ k') by (intros ->; congruence).
           split; [by rewrite lookup_insert_ne|].
           apply elem_of_cons in Hl as [-> | Hl]; [congruence|]. eauto.
      * by rewrite Hdom, Hsame.
      * intros l Hl. apply elem_of_cons in Hl as [-> | Hl]; [|eauto].
        exists k. split; [assumption|].
        apply elem_of_dom. rewrite Hdom, Hsame.
        apply elem_of_union_l, elem_of_dom. eauto.
Qed.

Lemma new_light_objects_all (reg : gmap pykey HoumDevice) (keys : list pykey) :
  (forall k, k ∈ keys -> is_Some (reg !! k)) ->
  Forall2 (fun k d => reg !! k = Some d) keys (new_light_objects reg keys).
Proof.
  unfold new_light_objects.
  induction keys as [|k keys IH]; intros Hall; simpl.
  - constructor.
  - destruct (Hall k) as [d Hd]; [left|].
    rewrite Hd. simpl. constructor; [assumption|].
    apply IH. intros k' Hk'. apply Hall. by right.
Qed.

End PassEffects.

(** Over any number of passes, whatever the responses, a record the registry
    has is never removed and keeps its class, id, type, name and protocol. *)
Theorem records_are_never_removed passes self k d :
  device_id_map self !! k = Some d ->
  exists d', device_id_map (run_passes passes self) !! k = Some d'
             /\ same_identity d d'.
Proof.
  revert self d.
  induction passes as [|[[now_check now_fetch] response] rest IH];
    intros self d Hd; simpl.
  - exists d. split; [assumption | apply same_identity_refl].
  - destruct (discover_keeps_record self now_check now_fetch response k d Hd)
      as (d1 & Hd1 & Hid1).
    destruct (IH _ _ Hd1) as (d2 & Hd2 & Hid2).
    exists d2. split; [assumption|]. by apply same_identity_trans with d1.
Qed.

Lemma records_are_never_removed_witness :
  let self := mkHoumController "site" exclude_x [] 0 {[ KStr "a" := lamp ]} in
  let passes :=
    [(5, 5, Ok (snapshot [light_entry "a" "binary" true 77]));
     (7, 7, Ok (snapshot [light_entry "x" "binary" true 255]));
     (9, 9, Raise RequestException);
     (11, 11, Ok (snapshot []))]%float in
  device_id_map self !! KStr "a" = Some lamp
  /\ exists d', device_id_map (run_passes passes self) !! KStr "a" = Some d'
                /\ same_identity lamp d'.
Proof.
  split; [reflexivity|].
  exact (records_are_never_removed _
           (mkHoumController "site" exclude_x [] 0 {[ KStr "a" := lamp ]})
           (KStr "a") lamp eq_refl).
Defined.

(** A pass leaves the record of an id alone when no device found in the
    snapshot has that id: reconciliation touches only the ids it is given. *)
Theorem discover_other_records_untouched self now_check now_fetch response k :
  (forall found l,
     (get_lights self now_fetch response ["binary"; "dimmable"]
        (protocols self)).1.1 = Ok found ->
     l ∈ found -> py_hash (deviceId l) <> Ok k) ->
  device_id_map
    (discover_lights_and_sync_statuses self now_check now_fetch response).1.2 !! k
  = device_id_map self !! k.
Proof.
  intros Hother. rewrite get_lights_eq in Hother. simpl in Hother.
  destruct (rate_limited self now_check) eqn:Hlt; [|rename Hlt into Hle].
  - by rewrite discover_rate_limited.
  - rewrite discover_fetch by assumption.
    destruct (found_lights response (protocols self)) as [found|[]];
      try reflexivity.
    pose proof (sync_lights_other_keys (config_device_data self) found
                  (device_id_map self) [] k
                  (fun l Hl => Hother found l eq_refl Hl)) as Hk.
    destruct (sync_lights _ found _ []) as [[reg new_lights] [[]|e]]; exact Hk.
Qed.

Lemma discover_other_records_untouched_witness :
  let self := mkHoumController "site" ∅ [] 0 {[ KStr "a" := lamp ]} in
  device_id_map
    (discover_lights_and_sync_statuses self 5 5
       (Ok (snapshot [light_entry "b" "binary" true 255]))).1.2 !! KStr "a"
  = device_id_map self !! KStr "a".
Proof.
  apply (discover_other_records_untouched
           (mkHoumController "site" ∅ [] 0 {[ KStr "a" := lamp ]}) 5 5
           (Ok (snapshot [light_entry "b" "binary" true 255])) (KStr "a")).
  intros found l Hfound Hl. vm_compute in Hfound. injection Hfound as <-.
  apply list_elem_of_singleton in Hl. subst l. vm_compute. discriminate.
Defined.

(** A pass that fetches and completes inserts a record for each id found
    that the registry did not have, and for no other id; every device found
    then has a record; and the callback is called once, with exactly the
    inserted records (one per new id, in the order the ids came), when there
    are any, and is not called otherwise. *)
Theorem discover_announces_new_devices self now_check now_fetch response found :
  rate_limited self now_check = false ->
  (get_lights self now_fetch response ["binary"; "dimmable"]
     (protocols self)).1.1 = Ok found ->
  let p := discover_lights_and_sync_statuses self now_check now_fetch response in
  p.1.1 = Ok PyNone ->
  exists added batch,
    NoDup added
    /\ (forall k, k ∈ added <->
          device_id_map self !! k = None
          /\ exists l, l ∈ found /\ py_hash (deviceId l) = Ok k)
    /\ dom (device_id_map p.1.2) = dom (device_id_map self) ∪ list_to_set added
    /\ (forall l, l ∈ found ->
          exists k, py_hash (deviceId l) = Ok k
                    /\ is_Some (device_id_map p.1.2 !! k))
    /\ Forall2 (fun k d => device_id_map p.1.2 !! k = Some d) added batch
    /\ p.2 = HttpGet (site_info_url self)
             :: (if is_empty added then [] else [AddDevices batch]).
Proof.
  intros Hle Hfound p. subst p.
  rewrite get_lights_eq in Hfound. simpl in Hfound.
  rewrite discover_fetch by assumption. rewrite Hfound.
  destruct (sync_lights (config_device_data self) found (device_id_map self) [])
    as [[reg new_lights] r] eqn:Hsync.
  destruct r as [[]|e]; simpl; [|discriminate].
  intros _.
  destruct (sync_lights_completes _ _ _ _ _ _ Hsync)
    as (added & Hnew & Hnodup & Hmem & Hdom & Hall).
  simpl in Hnew. subst new_lights.
  exists added, (new_light_objects reg added).
  split; [assumption|]. split; [assumption|]. split; [assumption|].
  split; [assumption|]. split; [|reflexivity].
  apply new_light_objects_all. intros k Hk.
  apply elem_of_dom. rewrite Hdom.
  apply elem_of_union_r, elem_of_list_to_set. assumption.
Qed.

Lemma discover_announces_new_devices_witness :
  let self := mkHoumController "site" ∅ [] 0 {[ KStr "a" := lamp ]} in
  let response :=
    Ok (snapshot [light_entry "b" "binary" true 255;
                  light_entry "a" "dimmable" true 9;
                  light_entry "b" "binary" false 0]) in
  let p := discover_lights_and_sync_statuses self 5 5 response in
  rate_limited self 5 = false
  /\ p.1.1 = Ok PyNone
  /\ p.2 = [HttpGet (site_info_url self);
            AddDevices [mkHoumDevice HoumSwitch (PyBool false) (PyInt 0) (PyStr "b")
                          (PyStr "binary") (PyStr "Lamp") (PyStr "knx")]]
  /\ exists added batch,
       NoDup added
       /\ dom (device_id_map p.1.2) = dom (device_id_map self) ∪ list_to_set added
       /\ Forall2 (fun k d => device_id_map p.1.2 !! k = Some d) added batch.
Proof.
  assert (H : rate_limited (mkHoumController "site" ∅ [] 0 {[ KStr "a" := lamp ]}) 5 = false)
    by reflexivity.
  split; [exact H|]. split; [reflexivity|]. split; [reflexivity|].
  destruct (discover_announces_new_devices
              (mkHoumController "site" ∅ [] 0 {[ KStr "a" := lamp ]}) 5 5
              (Ok (snapshot [light_entry "b" "binary" true 255;
                             light_entry "a" "dimmable" true 9;
                             light_entry "b" "binary" false 0]))
              _ H eq_refl eq_refl)
    as (added & batch & Hnodup & _ & Hdom & _ & Hbatch & _).
  exists added, batch. auto.
Defined.

Lemma excluded_never_inserted_witness :
  let passes :=
    [(5, 5, Ok (snapshot [light_entry "a" "binary" true 77]));
     (7, 7, Ok (snapshot [light_entry "x" "binary" true 255]));
     (9, 9, Ok (snapshot [light_entry "b" "dimmable" true 1;
                          light_entry "x" "dimmable" true 1]))]%float in
  excludes (config_device_data (fresh_controller exclude_x)) (KStr "x")
  /\ device_id_map (run_passes passes (fresh_controller exclude_x)) !! KStr "x" = None.
Proof.
  assert (H : excludes (config_device_data (fresh_controller exclude_x)) (KStr "x")).
  { exists (PyDict [("exclude", PyBool true)]), (PyBool true).
    repeat split; reflexivity. }
  split; [exact H|].
  exact (excluded_never_inserted _ (fresh_controller exclude_x) (KStr "x")
           H eq_refl).
Defined.

(** ** Push updates, further *)

(** A push with ['_id'], ['bri'] and ['on'] for a known id writes the two
    values to that record, notifies once with the record as written, and
    leaves everything else of the controller as it was. *)
Theorem update_light_applies_push self payload v_id k v_bri v_on d :
  dict_lookup "_id" payload = Some v_id ->
  py_hash v_id = Ok k ->
  dict_lookup "bri" payload = Some v_bri ->
  dict_lookup "on" payload = Some v_on ->
  device_id_map self !! k = Some d ->
  update_light self (PyDict payload)
  = (Ok tt,
     set_device_id_map (<[k := set_on v_on (set_bri v_bri d)]> (device_id_map self)) self,
     [UpdateHaState (set_on v_on (set_bri v_bri d))])
  /\ same_identity d (set_on v_on (set_bri v_bri d)).
Proof.
  intros Hid Hk Hbri Hon Hd. split.
  - unfold update_light. simpl. unfold_bind. rewrite Hid, Hk, Hbri, Hd. simpl.
    rewrite Hon. unfold set_device_id_map. simpl.
    by rewrite insert_insert_eq.
  - destruct d. repeat split.
Qed.

Lemma update_light_applies_push_witness :
  let self := mkHoumController "site" ∅ [] 0 {[ KStr "a" := lamp ]} in
  update_light self
    (PyDict [("on", PyBool true); ("_id", PyStr "a"); ("bri", PyInt 200);
             ("source", PyStr "wall switch")])
  = (Ok tt,
     set_device_id_map
       (<[KStr "a" := set_on (PyBool true) (set_bri (PyInt 200) lamp)]>
          (device_id_map self)) self,
     [UpdateHaState (set_on (PyBool true) (set_bri (PyInt 200) lamp))]).
Proof.
  exact (proj1 (update_light_applies_push
                  (mkHoumController "site" ∅ [] 0 {[ KStr "a" := lamp ]})
                  [("on", PyBool true); ("_id", PyStr "a"); ("bri", PyInt 200);
                   ("source", PyStr "wall switch")]
                  (PyStr "a") (KStr "a") (PyInt 200) (PyBool true) lamp
                  eq_refl eq_refl eq_refl eq_refl eq_refl)).
Defined.

Lemma update_light_unknown_id_witness :
  let self := mkHoumController "site" ∅ [] 0 {[ KStr "a" := lamp ]} in
  device_id_map self !! KStr "z" = None
  /\ update_light self (PyDict [("_id", PyStr "z"); ("on", PyBool true);
                                ("bri", PyInt 200)])
     = (Ok tt, self,
        [LogError "Invalid data received from socket: ";
         LogErrorArgs ["'NoneType' object has no attribute 'bri'"]]).
Proof.
  split; [reflexivity|].
  exact (update_light_unknown_id
           (mkHoumController "site" ∅ [] 0 {[ KStr "a" := lamp ]}) "z"
           (PyBool true) (PyInt 200) eq_refl).
Defined.

(** Whatever the payload, and whether the handler returns or raises, a push
    neither adds nor removes a record, keeps the identity of every record,
    leaves configuration and rate-limit time alone, and lets no
    [AttributeError] out. *)
Theorem update_light_keeps_registry_keys self updated_data :
  let p := update_light self updated_data in
  dom (device_id_map p.1.2) = dom (device_id_map self)
  /\ (forall k d, device_id_map self !! k = Some d ->
        exists d', device_id_map p.1.2 !! k = Some d' /\ same_identity d d')
  /\ last_command_sent p.1.2 = last_command_sent self
  /\ config_device_data p.1.2 = config_device_data self
  /\ p.1.1 <> Raise AttributeError.
Proof.
  assert (Hexc : forall e s,
            (update_light_except e s).1.2 = s
            /\ (update_light_except e s).1.1 <> Raise AttributeError).
  { intros e s. destruct e; simpl; split; congruence. }
  assert (Hid : forall k d, device_id_map self !! k = Some d ->
                  exists d', device_id_map self !! k = Some d' /\ same_identity d d').
  { intros k d Hd. exists d. split; [assumption | apply same_identity_refl]. }
  unfold update_light.
  destruct (v ← py_getitem updated_data "_id"; py_hash v) as [k|e].
  2:{ destruct (Hexc e self) as [Heq Hne]. cbv zeta. rewrite Heq. auto. }
  destruct (py_getitem updated_data "bri") as [v_bri|e].
  2:{ destruct (Hexc e self) as [Heq Hne]. cbv zeta. rewrite Heq. auto. }
  destruct (device_id_map self !! k) as [d|] eqn:Hd.
  2:{ destruct (Hexc AttributeError self) as [Heq Hne]. cbv zeta. rewrite Heq. auto. }
  assert (Hdom : forall d1 d2,
            dom (<[k := d2]> (<[k := d1]> (device_id_map self)))
            = dom (device_id_map self)).
  { intros d1 d2. rewrite insert_insert_eq. apply dom_insert_lookup_L. eauto. }
  assert (Hkeep : forall d1 d2, same_identity d d2 ->
            forall k' d0, device_id_map self !! k' = Some d0 ->
              exists d', <[k := d2]> (<[k := d1]> (device_id_map self)) !! k' = Some d'
                         /\ same_identity d0 d').
  { intros d1 d2 Hd2 k' d0 Hd0. rewrite insert_insert_eq.
    destruct (decide (k = k')) as [<-|Hne].
    - rewrite lookup_insert_eq. exists d2. split; [reflexivity|]. congruence.
    - rewrite lookup_insert_ne by assumption. exists d0.
      split; [assumption | apply same_identity_refl]. }
  assert (Hdom1 : forall d1,
            dom (<[k := d1]> (device_id_map self)) = dom (device_id_map self))
    by (intros d1; apply dom_insert_lookup_L; eauto).
  assert (Hkeep1 : forall d1, same_identity d d1 ->
            forall k' d0, device_id_map self !! k' = Some d0 ->
              exists d', <[k := d1]> (device_id_map self) !! k' = Some d'
                         /\ same_identity d0 d').
  { intros d1 Hd1 k' d0 Hd0. destruct (decide (k = k')) as [<-|Hne].
    - rewrite lookup_insert_eq. exists d1. split; [reflexivity|]. congruence.
    - rewrite lookup_insert_ne by assumption. exists d0.
      split; [assumption | apply same_identity_refl]. }
  destruct (py_getitem updated_data "on") as [v_on|e]; cbv zeta.
  - simpl. split; [apply Hdom|]. split.
    + apply Hkeep. destruct d. repeat split.
    + split; [reflexivity|]. split; [reflexivity | discriminate].
  - match goal with |- context [update_light_except e ?s] =>
      destruct (Hexc e s) as [Heq Hne]; rewrite Heq end.
    simpl. split; [apply Hdom1|]. split.
    + apply Hkeep1. destruct d. repeat split.
    + auto.
Qed.

(** ** Construction *)

(** Without a [site_key] (absent or empty) the constructor logs one error
    and does nothing else: no request, no socket, no poller.  The platform
    setup still registers [close_socket] for the stop of the host, and on
    such a controller [close_socket] raises [AttributeError], as no timer
    was ever created. *)
Theorem setup_without_site_key config now_check now_fetch response caller :
  site_key_missing config = true ->
  let inert := mkObject None None None None None 0 in
  setup_platform config now_check now_fetch response
  = (None, inert,
     [Core (LogError "The required parameter 'site_key' was not found in config");
      ListenOnceStop])
  /\ close_socket caller inert
     = (Some (Raised AttributeError), mkObject None None None (Some false) None 0, []).
Proof.
  intros H. unfold site_key_missing in H.
  unfold setup_platform, HoumController_init.
  destruct (site_key config) as [[|c key]|]; try discriminate; split; reflexivity.
Qed.

Lemma setup_without_site_key_witness :
  let config := mkConfig None exclude_x ["knx"] in
  site_key_missing config = true
  /\ setup_platform config 5 5 (Ok (snapshot [light_entry "a" "binary" true 255]))
     = (None, mkObject None None None None None 0,
        [Core (LogError "The required parameter 'site_key' was not found in config");
         ListenOnceStop]).
Proof.
  split; [reflexivity|].
  exact (proj1 (setup_without_site_key (mkConfig None exclude_x ["knx"]) 5 5
                  (Ok (snapshot [light_entry "a" "binary" true 255]))
                  HostThread eq_refl)).
Defined.

(** When the discovery pass of the constructor raises, the constructor
    raises the same exception: no socket is opened, no poller is started and
    the platform setup registers nothing. *)
Theorem setup_aborts_when_discovery_raises config key now_check now_fetch response e :
  site_key config = Some key -> key <> EmptyString ->
  (discover_lights_and_sync_statuses
     (mkHoumController key (device_data config) (config_protocols config)
        0 ∅) now_check now_fetch response).1.1 = Raise e ->
  let p := setup_platform config now_check now_fetch response in
  p.1.1 = Some (Raised e)
  /\ socket p.1.2 = None
  /\ discover_and_sync_timer p.1.2 = None
  /\ count_calls is_socket_new p.2 = 0%nat
  /\ count_calls is_timer_start p.2 = 0%nat
  /\ ListenOnceStop ∉ p.2.
Proof.
  intros Hkey Hne Hraise p. subst p.
  unfold setup_platform, HoumController_init. rewrite Hkey.
  destruct key as [|c key]; [contradiction|].
  destruct (discover_lights_and_sync_statuses _ now_check now_fetch response)
    as [[r c'] trace]. simpl in Hraise. subst r. simpl.
  split; [reflexivity|]. split; [reflexivity|]. split; [reflexivity|].
  assert (Hcore : forall p, (forall ev, p (Core ev) = false) ->
                    List.filter p (map Core trace) = []).
  { intros p Hp. induction trace as [|ev trace IH]; simpl; [reflexivity|].
    by rewrite Hp. }
  unfold count_calls. rewrite !Hcore by reflexivity.
  split; [reflexivity|]. split; [reflexivity|].
  intros Hin. apply list_elem_of_fmap in Hin as (ev & Hev & _). discriminate.
Qed.

Lemma setup_aborts_when_discovery_raises_witness :
  let config := mkConfig (Some "site") exclude_x [] in
  let response := Ok (snapshot [light_entry "x" "binary" true 255]) in
  let p := setup_platform config 5 5 response in
  p.1.1 = Some (Raised KeyError)
  /\ socket p.1.2 = None
  /\ discover_and_sync_timer p.1.2 = None
  /\ count_calls is_socket_new p.2 = 0%nat
  /\ count_calls is_timer_start p.2 = 0%nat
  /\ ListenOnceStop ∉ p.2.
Proof.
  exact (setup_aborts_when_discovery_raises (mkConfig (Some "site") exclude_x [])
           "site" 5 5 (Ok (snapshot [light_entry "x" "binary" true 255]))
           KeyError eq_refl ltac:(discriminate) eq_refl).
Defined.

(** A network failure of the first discovery does not stop the setup: the
    failure is logged, then the socket is opened with its four handlers, the
    poller is started at 5 seconds and the stop listener is registered; the
    controller starts with an empty registry and reconnection enabled. *)
Theorem setup_survives_network_failure config key now_check now_fetch :
  site_key config = Some key -> key <> EmptyString ->
  PrimFloat.ltb now_check 1 = false ->
  let core :=
    mkHoumController key (device_data config) (config_protocols config)
      now_fetch ∅ in
  setup_platform config now_check now_fetch (Raise RequestException)
  = (None,
     mkObject (Some core) (Some 0%nat) (Some 0%nat) (Some true) (Some true) 1,
     [Core (HttpGet (site_info_url core));
      Core (LogException "Error communicating with Houm");
      Print "opening socket";
      SocketIO_new 0 "https://houmi.herokuapp.com";
      SocketOn 0 "connect" "on_connect";
      SocketThreadStart 0;
      SocketOn 0 "disconnect" "reconnect";
      SocketOn 0 "close" "reconnect";
      SocketOn 0 "error" "reconnect";
      TimerStart 5;
      ListenOnceStop]).
Proof.
  intros Hkey Hne Hle.
  unfold setup_platform, HoumController_init. rewrite Hkey.
  destruct key as [|c key]; [contradiction|].
  rewrite discover_fetch.
  - reflexivity.
  - exact Hle.
Qed.

Lemma setup_survives_network_failure_witness :
  let config := mkConfig (Some "site") ∅ [] in
  (setup_platform config 5 5 (Raise RequestException)).1.1 = None
  /\ count_calls is_socket_new
       (setup_platform config 5 5 (Raise RequestException)).2 = 1%nat.
Proof.
  cbv zeta.
  rewrite (setup_survives_network_failure (mkConfig (Some "site") ∅ []) "site" 5 5
             eq_refl ltac:(discriminate) eq_refl).
  split; reflexivity.
Defined.

(** ** Closing and reconnecting *)

(** [close_socket] disables reconnection before anything else, so also when
    it then raises; from then on [reconnect] only prints (or raises, when
    there is no socket thread): it changes nothing and opens no socket. *)
Theorem close_socket_disables_reconnect caller caller' self :
  let closed := (close_socket caller self).1.2 in
  reconnect_on_disconnect closed = Some false
  /\ (reconnect caller' closed).1.2 = closed
  /\ count_calls is_socket_new (reconnect caller' closed).2 = 0%nat.
Proof.
  assert (Hflag : reconnect_on_disconnect (close_socket caller self).1.2 = Some false).
  { unfold close_socket, StoppableThread_stop. simpl.
    destruct (discover_and_sync_timer self) as [[]|]; simpl; try reflexivity;
      destruct (thread_eqb caller TimerThread); simpl; try reflexivity;
      destruct (socket self); simpl; try reflexivity;
      destruct (socket_thread self) as [m|]; simpl; try reflexivity;
      destruct (thread_eqb caller (SocketThread m)); reflexivity. }
  cbv zeta. split; [exact Hflag|].
  unfold reconnect. rewrite Hflag.
  destruct (socket_thread (close_socket caller self).1.2); split; reflexivity.
Qed.

(** A [reconnect] that runs, with reconnection enabled, on a thread other
    than the socket's and the timer's: it stops the poller, disconnects,
    joins the socket thread and opens one new socket.  It leaves
    reconnection disabled and the poller stopped, so polling has ended and
    a later [reconnect] opens nothing: the controller reconnects once. *)
Theorem reconnect_happens_once caller caller' self n m alive :
  socket self = Some n ->
  socket_thread self = Some m ->
  reconnect_on_disconnect self = Some true ->
  discover_and_sync_timer self = Some alive ->
  caller <> SocketThread m -> caller <> TimerThread ->
  let p := reconnect caller self in
  p.1.1 = None
  /\ p.2 = PrintIsAlive m
           :: (if alive then [StopEventSet; TimerJoin] else [])
           ++ [SocketDisconnect n; SocketThreadJoin m]
           ++ (open_socket self).2
  /\ reconnect_on_disconnect p.1.2 = Some false
  /\ discover_and_sync_timer p.1.2 = Some false
  /\ socket p.1.2 = Some (sockets_created self)
  /\ (reconnect caller' p.1.2).1.2 = p.1.2
  /\ count_calls is_socket_new (reconnect caller' p.1.2).2 = 0%nat.
Proof.
  intros Hs Ht Hflag Htimer Hc1 Hc2 p. subst p.
  assert (E1 : thread_eqb caller (SocketThread m) = false).
  { destruct caller as [|k|]; simpl; try reflexivity.
    apply Nat.eqb_neq. congruence. }
  assert (E2 : thread_eqb caller TimerThread = false)
    by (destruct caller; simpl; congruence).
  destruct self as [a s t f tm c]. simpl in Hs, Ht, Hflag, Htimer. subst s t f tm.
  unfold reconnect, close_socket, StoppableThread_stop. simpl.
  rewrite E2. destruct alive; simpl; rewrite E1; simpl; repeat split; reflexivity.
Qed.

Lemma reconnect_happens_once_witness :
  let self :=
    (setup_platform (mkConfig (Some "site") ∅ []) 5 5 (Raise RequestException)).1.2 in
  let p := reconnect HostThread self in
  p.1.1 = None
  /\ reconnect_on_disconnect p.1.2 = Some false
  /\ discover_and_sync_timer p.1.2 = Some false
  /\ socket p.1.2 = Some 1%nat
  /\ (reconnect (SocketThread 1) p.1.2).1.2 = p.1.2
  /\ count_calls is_socket_new (reconnect (SocketThread 1) p.1.2).2 = 0%nat.
Proof.
  destruct (reconnect_happens_once HostThread (SocketThread 1)
              (setup_platform (mkConfig (Some "site") ∅ []) 5 5
                 (Raise RequestException)).1.2
              0 0 true eq_refl eq_refl eq_refl eq_refl
              ltac:(discriminate) ltac:(discriminate))
    as (H1 & _ & H3 & H4 & H5 & H6 & H7).
  repeat split; assumption.
Defined.

(** A [reconnect] that runs on the socket's own thread, with reconnection
    enabled: joining the current thread raises [RuntimeError], after the
    poller has been stopped and the socket disconnected; no new socket is
    opened, and reconnection stays disabled. *)
Theorem reconnect_on_socket_thread_raises self n m alive :
  socket self = Some n ->
  socket_thread self = Some m ->
  reconnect_on_disconnect self = Some true ->
  discover_and_sync_timer self = Some alive ->
  let p := reconnect (SocketThread m) self in
  p.1.1 = Some RuntimeError
  /\ p.2 = PrintIsAlive m
           :: (if alive then [StopEventSet; TimerJoin] else [])
           ++ [SocketDisconnect n]
  /\ socket p.1.2 = Some n
  /\ reconnect_on_disconnect p.1.2 = Some false
  /\ discover_and_sync_timer p.1.2 = Some false.
Proof.
  intros Hs Ht Hflag Htimer p. subst p.
  destruct self as [a s t f tm c]. simpl in Hs, Ht, Hflag, Htimer. subst s t f tm.
  unfold reconnect, close_socket, StoppableThread_stop. simpl.
  destruct alive; simpl; rewrite Nat.eqb_refl; repeat split; reflexivity.
Qed.

Lemma reconnect_on_socket_thread_raises_witness :
  let self :=
    (setup_platform (mkConfig (Some "site") ∅ []) 5 5 (Raise RequestException)).1.2 in
  let p := reconnect (SocketThread 0) self in
  p.1.1 = Some RuntimeError
  /\ p.2 = [PrintIsAlive 0; StopEventSet; TimerJoin; SocketDisconnect 0]
  /\ socket p.1.2 = Some 0%nat
  /\ reconnect_on_disconnect p.1.2 = Some false
  /\ discover_and_sync_timer p.1.2 = Some false.
Proof.
  exact (reconnect_on_socket_thread_raises
           (setup_platform (mkConfig (Some "site") ∅ []) 5 5
              (Raise RequestException)).1.2
           0 0 true eq_refl eq_refl eq_refl eq_refl).
Defined.

(** ** The poller *)

Section Poller.

Lemma IntervalTimer_run_app pre rest self :
  IntervalTimer_run (pre ++ rest) self
  = match IntervalTimer_run pre self with
    | (Looping, self1, trace) =>
        let '(status, self2, trace') := IntervalTimer_run rest self1 in
        (status, self2, trace ++ trace')
    | stopped => stopped
    end.
Proof.
  revert self.
  induction pre as [|[stop [[t1 t2] response]] pre IH]; intros self; simpl.
  - by destruct (IntervalTimer_run rest self) as [[status self2] trace'].
  - destruct stop; [reflexivity|].
    destruct (discover_lights_and_sync_statuses self t1 t2 response)
      as [[[v|e] self1] trace]; [|reflexivity].
    rewrite IH.
    destruct (IntervalTimer_run pre self1) as [[[] self2] trace2]; try reflexivity.
    destruct (IntervalTimer_run rest self2) as [[status self3] trace3].
    by rewrite app_assoc.
Qed.


End Poller.

(** The poller ends when a pass raises.  At the first turn whose pass lets
    an exception through, [run] ends with that exception, and no turn after
    it runs: nothing is fetched any more, whatever the later responses. *)
Theorem poller_dies_when_pass_raises pre post self self1 trace1 t1 t2 response e :
  IntervalTimer_run pre self = (Looping, self1, trace1) ->
  (discover_lights_and_sync_statuses self1 t1 t2 response).1.1 = Raise e ->
  IntervalTimer_run (pre ++ (false, (t1, t2, response)) :: post) self
  = (Died e,
     (discover_lights_and_sync_statuses self1 t1 t2 response).1.2,
     trace1 ++ (discover_lights_and_sync_statuses self1 t1 t2 response).2).
Proof.
  intros Hpre Hraise. rewrite IntervalTimer_run_app, Hpre. simpl.
  destruct (discover_lights_and_sync_statuses self1 t1 t2 response)
    as [[r self2] trace2]. simpl in Hraise. subst r. reflexivity.
Qed.

Lemma poller_dies_when_pass_raises_witness :
  let good := Ok (snapshot [light_entry "a" "binary" true 255]) in
  let bad := Ok (snapshot [light_entry "x" "binary" true 255]) in
  let turns :=
    ([(false, (5, 5, good))] ++ (false, (10, 10, bad))
       :: [(false, (15, 15, good)); (false, (20, 20, good))])%float in
  (IntervalTimer_run turns (fresh_controller exclude_x)).1.1 = Died KeyError
  /\ count is_fetch (IntervalTimer_run turns (fresh_controller exclude_x)).2 = 2%nat.
Proof.
  cbv zeta.
  rewrite (poller_dies_when_pass_raises
             [(false, (5, 5, Ok (snapshot [light_entry "a" "binary" true 255])))]%float
             [(false, (15, 15, Ok (snapshot [light_entry "a" "binary" true 255])));
              (false, (20, 20, Ok (snapshot [light_entry "a" "binary" true 255])))]%float
             (fresh_controller exclude_x) _ _ 10 10
             (Ok (snapshot [light_entry "x" "binary" true 255])) KeyError
             eq_refl eq_refl).
  split; reflexivity.
Defined.

(** The poller ends at the first turn that sees the stop event set: the
    worker is not called at that turn or after it. *)
Theorem poller_exits_on_stop_event pre post self self1 trace1 turn :
  IntervalTimer_run pre self = (Looping, self1, trace1) ->
  IntervalTimer_run (pre ++ (true, turn) :: post) self = (Exited, self1, trace1).
Proof.
  intros Hpre. rewrite IntervalTimer_run_app, Hpre. simpl.
  destruct turn as [[t1 t2] response]. by rewrite app_nil_r.
Qed.

Lemma poller_exits_on_stop_event_witness :
  let good := Ok (snapshot [light_entry "a" "binary" true 255]) in
  let self := mkHoumController "site" ∅ [] 0 ∅ in
  let turns :=
    ([(false, (5, 5, good))] ++ (true, (10, 10, good))
       :: [(false, (15, 15, good))])%float in
  (IntervalTimer_run turns self).1.1 = Exited
  /\ count is_fetch (IntervalTimer_run turns self).2 = 1%nat.
Proof.
  cbv zeta.
  assert (Hpre :
    IntervalTimer_run
      [(false, (5, 5, Ok (snapshot [light_entry "a" "binary" true 255])))]%float
      (mkHoumController "site" ∅ [] 0 ∅)
    = (Looping,
       set_device_id_map
         {[ KStr "a" := mkHoumDevice HoumSwitch (PyBool true) (PyInt 255)
                          (PyStr "a") (PyStr "binary") (PyStr "Lamp")
                          (PyStr "knx") ]}
         (set_last_command_sent 5 (mkHoumController "site" ∅ [] 0 ∅)),
       [HttpGet "https://houmi.herokuapp.com/api/site/site";
        AddDevices [mkHoumDevice HoumSwitch (PyBool true) (PyInt 255)
                      (PyStr "a") (PyStr "binary") (PyStr "Lamp")
                      (PyStr "knx")]]))
    by (vm_compute; reflexivity).
  rewrite (poller_exits_on_stop_event _
             [(false, (15, 15, Ok (snapshot [light_entry "a" "binary" true 255])))]%float
             _ _ _
             (10, 10, Ok (snapshot [light_entry "a" "binary" true 255]))%float
             Hpre).
  split; reflexivity.
Defined.


(** Three turns whose requests all fail: three fetches, the loop still
    running, the registry as it was. *)
Example poller_three_failed_requests :
  let self := mkHoumController "site" ∅ [] 0 {[ KStr "a" := lamp ]} in
  let p := IntervalTimer_run
             [(false, (5, 5, Raise RequestException));
              (false, (10, 10, Raise RequestException));
              (false, (15, 15, Raise RequestException))]%float self in
  p.1.1 = Looping
  /\ count is_fetch p.2 = 3%nat
  /\ device_id_map p.1.2 = device_id_map self.
Proof. vm_compute. repeat split. Qed.
